(** * Task Management API: owner-scoped task CRUD with registration and login

    A shallow embedding of [app/main.py] and [app/models.py].

    - Python dictionaries and MongoDB documents are finite maps from key
      names to values ([gmap string Value]).
    - A collection is the list of its documents in natural (insertion) order.
    - A handler is a computation in a state-and-exception monad over the
      database; [try ... except Exception] is the combinator [try_except].
    - The framework around a handler (request-model validation before it,
      [response_model] filtering and status mapping after it) is [serve] and
      the [api_*] definitions.
    - The helpers imported from [auth], the string form of [bson.ObjectId]
      and [str] are the fields of the class [Externals]: nothing is assumed
      about them unless a theorem states it. *)

From stdpp Require Import gmap strings list fin_maps pretty.
From Stdlib Require Import ZArith Lia Ascii.

Open Scope string_scope.
Set Warnings "-register-all".

(** ** Values and documents *)

(** [datetime] values are counted in milliseconds, the resolution at which the
    store keeps them. *)
Inductive Value : Type :=
| VNone
| VStr (s : string)
| VBool (b : bool)
| VInt (z : Z)
| VDate (t : Z)
| VOid (o : N).

#[global] Instance Value_eq_dec : EqDecision Value.
Proof. solve_decision. Defined.

Abbreviation Doc := (gmap string Value).

(** ** Python exceptions *)

Inductive PyExn : Type :=
| HTTPException (status_code : nat) (detail : string)
| InvalidId (oid : string)
| DuplicateKeyError
| KeyError (key : string)
| AttributeError
| ValueError
| OtherError (msg : string).

Inductive Result (A : Type) : Type :=
| Return (a : A)
| Raise (e : PyExn).
Arguments Return {A} a.
Arguments Raise {A} e.

(** ** The document store *)

Module Mongo.

(** A query document: field conditions, all of which must hold, or an
    [$or] over query documents. *)
Inductive Filter : Type :=
| Fields (q : Doc)
| Or (qs : list Filter).

(** Equality condition [{k: v}]: the stored value equals [v]; a missing
    field is matched by [None] only. *)
Definition field_matches (d : Doc) (k : string) (v : Value) : Prop :=
  match d !! k with
  | Some w => w = v
  | None => v = VNone
  end.

#[global] Instance field_matches_dec d k v : Decision (field_matches d k v).
Proof. unfold field_matches. destruct (d !! k); apply _. Defined.

Fixpoint matches (q : Filter) (d : Doc) : bool :=
  match q with
  | Fields m => bool_decide (map_Forall (field_matches d) m)
  | Or qs => existsb (fun q' => matches q' d) qs
  end.

Fixpoint find_one (q : Filter) (coll : list Doc) : option Doc :=
  match coll with
  | [] => None
  | d :: rest => if matches q d then Some d else find_one q rest
  end.

Definition find (q : Filter) (coll : list Doc) : list Doc :=
  List.filter (matches q) coll.

Definition count_documents (q : Filter) (coll : list Doc) : nat :=
  length (find q coll).

(** [update_one(q, {"$set": upd})]: the first matching document takes the
    fields of [upd]; its other fields stay. *)
Fixpoint update_one (q : Filter) (upd : Doc) (coll : list Doc) : list Doc :=
  match coll with
  | [] => []
  | d :: rest =>
      if matches q d then (upd ∪ d) :: rest else d :: update_one q upd rest
  end.

Fixpoint delete_one (q : Filter) (coll : list Doc) : list Doc :=
  match coll with
  | [] => []
  | d :: rest => if matches q d then rest else d :: delete_one q rest
  end.

(** A unique index on [k] refuses a document whose value at [k] is already
    stored. *)
Definition key_of (k : string) (d : Doc) : Value := default VNone (d !! k).

Definition violates (unique : list string) (d : Doc) (coll : list Doc) : bool :=
  existsb
    (fun k => existsb (fun d' => bool_decide (key_of k d' = key_of k d)) coll)
    unique.

Definition insert_one (unique : list string) (d : Doc) (coll : list Doc)
  : Result (list Doc) :=
  if violates unique d coll then Raise DuplicateKeyError
  else Return (coll ++ [d])%list.

(** [cursor.skip(s).limit(n)]: a negative skip is refused, a limit of 0 is
    no limit, a negative limit counts as its absolute value (the server then
    answers in one batch). *)
Definition skip_limit (s n : Z) (l : list Doc) : Result (list Doc) :=
  if (s <? 0)%Z then Raise ValueError
  else
    let l' := drop (Z.to_nat s) l in
    Return (if (n =? 0)%Z then l' else take (Z.to_nat (Z.abs n)) l').

End Mongo.

(** ** Python dictionaries *)

(** [d[k]] *)
Definition getitem (d : Doc) (k : string) : Result Value :=
  match d !! k with
  | Some v => Return v
  | None => Raise (KeyError k)
  end.

(** [d[k]] where [d] may be [None]. *)
Definition getitem_opt (d : option Doc) (k : string) : Result Value :=
  match d with
  | Some d => getitem d k
  | None => Raise AttributeError
  end.

(** [d.get(k)] *)
Definition get (d : Doc) (k : string) : Value := default VNone (d !! k).

(** Truth value of a string, and of the result of [find_one] (a document or
    [None]; an empty dictionary is false). *)
Definition truthy_str (s : string) : bool :=
  negb (bool_decide (s = EmptyString)).

Definition truthy (o : option Doc) : bool :=
  match o with
  | Some d => negb (bool_decide (d = ∅))
  | None => false
  end.

(** ** models.py *)

(** A field of a JSON request body: absent, [null], or a value of the
    declared type. *)
Inductive field (A : Type) : Type :=
| Unset
| Null
| Given (a : A).
Arguments Unset {A}.
Arguments Null {A}.
Arguments Given {A} a.

(** A validated model instance: its field values, defaults filled in, and
    the names of the fields the caller supplied. *)
Record Model : Type := {
  values : Doc;
  fields_set : gset string
}.

Definition dict (m : Model) : Doc := values m.

Definition dict_exclude_unset (m : Model) : Doc :=
  filter (fun kv => kv.1 ∈ fields_set m) (values m).

(** A field declared [Optional[T] = dflt]. *)
Definition optional {A} (inj : A -> Value) (dflt : Value) (k : string)
    (f : field A) (m : Model) : Model :=
  match f with
  | Unset => {| values := <[k := dflt]> (values m);
                fields_set := fields_set m |}
  | Null => {| values := <[k := VNone]> (values m);
               fields_set := {[k]} ∪ fields_set m |}
  | Given a => {| values := <[k := inj a]> (values m);
                  fields_set := {[k]} ∪ fields_set m |}
  end.

Record TaskJson : Type := {
  j_title : field string;
  j_description : field string;
  j_category : field string;
  j_priority : field string;
  j_due_date : field Z;
  j_completed : field bool
}.

(** [class TaskBase]: [title: str] is required, the rest is optional;
    [None] stands for a validation error. *)
Definition TaskBase (j : TaskJson) : option Model :=
  match j_title j with
  | Given t =>
      Some (optional VDate VNone "due_date" (j_due_date j)
           (optional VStr (VStr "medium") "priority" (j_priority j)
           (optional VStr VNone "category" (j_category j)
           (optional VStr VNone "description" (j_description j)
              {| values := {[ "title" := VStr t ]};
                 fields_set := {[ "title" ]} |}))))
  | _ => None
  end.

(** [class TaskCreate(TaskBase): pass] *)
Definition TaskCreate (j : TaskJson) : option Model := TaskBase j.

(** [class TaskUpdate(TaskBase): completed: Optional[bool] = None] *)
Definition TaskUpdate (j : TaskJson) : option Model :=
  optional VBool VNone "completed" (j_completed j) <$> TaskBase j.

Record UserCreate : Type := {
  username : string;
  firstName : string;
  lastName : string;
  email : string;
  phoneNumber : string;
  password : string
}.

(** A request body that carries a title and nothing else. *)
Definition title_only (title : string) : TaskJson :=
  {| j_title := Given title; j_description := Unset; j_category := Unset;
     j_priority := Unset; j_due_date := Unset; j_completed := Unset |}.


(** The value a model keeps for an optional field. *)
Definition field_value {A} (inj : A -> Value) (dflt : Value) (f : field A)
  : Value :=
  match f with
  | Unset => dflt
  | Null => VNone
  | Given a => inj a
  end.

(** The value of a field after an update that may supply it. *)
Definition supplied {A} (inj : A -> Value) (f : field A) (old : option Value)
  : option Value :=
  match f with
  | Unset => old
  | Null => Some VNone
  | Given a => Some (inj a)
  end.

(** Response models: the returned dictionary is validated against the model
    and only the model's fields are emitted. *)
Definition is_str (v : Value) : bool :=
  match v with VStr _ => true | _ => false end.
Definition is_bool (v : Value) : bool :=
  match v with VBool _ => true | _ => false end.
Definition is_date (v : Value) : bool :=
  match v with VDate _ => true | _ => false end.
Definition is_none (v : Value) : bool :=
  match v with VNone => true | _ => false end.

Definition required (ty : Value -> bool) (k : string) (d : Doc) (out : Doc)
  : option Doc :=
  match d !! k with
  | Some v => if ty v then Some (<[k := v]> out) else None
  | None => None
  end.

Definition defaulted (ty : Value -> bool) (dflt : Value) (k : string) (d : Doc)
    (out : Doc) : option Doc :=
  match d !! k with
  | Some v => if ty v then Some (<[k := v]> out) else None
  | None => Some (<[k := dflt]> out)
  end.

Definition opt (ty : Value -> bool) (v : Value) : bool := ty v || is_none v.

(** [class User(UserBase)]: [email], [id], [created_at]. *)
Definition User (d : Doc) : option Doc :=
  out ← required is_str "email" d ∅;
  out ← required is_str "id" d out;
  required is_date "created_at" d out.

(** [class Token] *)
Definition Token (d : Doc) : option Doc :=
  out ← required is_str "access_token" d ∅;
  required is_str "token_type" d out.

(** [class Task(TaskBase)] *)
Definition Task (d : Doc) : option Doc :=
  out ← required is_str "title" d ∅;
  out ← defaulted (opt is_str) VNone "description" d out;
  out ← defaulted (opt is_str) VNone "category" d out;
  out ← defaulted (opt is_str) (VStr "medium") "priority" d out;
  out ← defaulted (opt is_date) VNone "due_date" d out;
  out ← required is_str "id" d out;
  out ← required is_str "user_id" d out;
  out ← defaulted is_bool (VBool false) "completed" d out;
  out ← required is_date "created_at" d out;
  defaulted (opt is_date) VNone "updated_at" d out.

(** ** Handlers: state and exceptions *)

(** [db.users], [db.tasks], and the source of fresh [ObjectId()] values. *)
Record World : Type := {
  users : list Doc;
  tasks : list Doc;
  next_oid : N
}.

Definition M (A : Type) : Type := World -> Result A * World.

#[global] Instance M_ret : MRet M := fun A a w => (Return a, w).

#[global] Instance M_bind : MBind M := fun A B f m w =>
  match m w with
  | (Return a, w') => f a w'
  | (Raise e, w') => (Raise e, w')
  end.

Definition raise {A} (e : PyExn) : M A := fun w => (Raise e, w).

Definition lift {A} (r : Result A) : M A := fun w => (r, w).

(** [ObjectId()] *)
Definition new_ObjectId : M N := fun w =>
  (Return (next_oid w),
   {| users := users w; tasks := tasks w; next_oid := N.succ (next_oid w) |}).

Module db.

Definition users_find_one (q : Mongo.Filter) : M (option Doc) := fun w =>
  (Return (Mongo.find_one q (users w)), w).

(** [users] carries the unique index on [email] made at startup. *)
Definition users_insert_one (d : Doc) : M unit := fun w =>
  match Mongo.insert_one ["_id"; "email"] d (users w) with
  | Return l =>
      (Return (), {| users := l; tasks := tasks w; next_oid := next_oid w |})
  | Raise e => (Raise e, w)
  end.

Definition tasks_find_one (q : Mongo.Filter) : M (option Doc) := fun w =>
  (Return (Mongo.find_one q (tasks w)), w).

Definition tasks_insert_one (d : Doc) : M unit := fun w =>
  match Mongo.insert_one ["_id"] d (tasks w) with
  | Return l =>
      (Return (), {| users := users w; tasks := l; next_oid := next_oid w |})
  | Raise e => (Raise e, w)
  end.

Definition tasks_update_one (q : Mongo.Filter) (upd : Doc) : M unit := fun w =>
  (Return (),
   {| users := users w; tasks := Mongo.update_one q upd (tasks w);
      next_oid := next_oid w |}).

Definition tasks_delete_one (q : Mongo.Filter) : M unit := fun w =>
  (Return (),
   {| users := users w; tasks := Mongo.delete_one q (tasks w);
      next_oid := next_oid w |}).

Definition tasks_count_documents (q : Mongo.Filter) : M nat := fun w =>
  (Return (Mongo.count_documents q (tasks w)), w).

Definition tasks_find (q : Mongo.Filter) (skip limit : Z) : M (list Doc) :=
  fun w => (Mongo.skip_limit skip limit (Mongo.find q (tasks w)), w).

End db.

(** The reply of an endpoint. *)
Inductive Response (A : Type) : Type :=
| Ok (body : A)
| Error (status_code : nat) (detail : string).
Arguments Ok {A} body.
Arguments Error {A} status_code detail.

Definition status {A} (r : Response A) : nat :=
  match r with
  | Ok _ => 200
  | Error c _ => c
  end.

(** What the framework does with a handler's outcome: an [HTTPException]
    gives its own status, any other exception and a return value refused by
    the response model give 500. *)
Definition serve {A B} (response_model : A -> option B) (r : Result A)
  : Response B :=
  match r with
  | Return a =>
      match response_model a with
      | Some b => Ok b
      | None => Error 500 "Internal Server Error"
      end
  | Raise (HTTPException c d) => Error c d
  | Raise _ => Error 500 "Internal Server Error"
  end.

(** A request body refused by its model never reaches the handler. *)
Definition unprocessable {A} : Response A := Error 422 "Unprocessable Entity".

(** The page returned by [get_tasks]. *)
Module Listing.
Record t : Type := {
  tasks : list Doc;
  total : nat;
  page : Z;
  limit : Z
}.
End Listing.

(** A request to one of the six routes, with what the environment supplies
    to it: the authenticated caller, the clock, the salt. *)
Inductive Request : Type :=
| Register (user : UserCreate) (now : Z) (salt : N)
| Login (credentials : Doc)
| PostTask (body : TaskJson) (current_user : Doc) (now : Z)
| PutTask (task_id : string) (body : TaskJson) (current_user : Doc) (now : Z)
| DeleteTask (task_id : string) (current_user : Doc)
| GetTasks (current_user : Doc) (page limit : Z)
    (category priority : option string) (completed : option bool)
    (due_date : option string).

(** ** What the handlers import

    [str] on values and on exceptions, the parsing of an [ObjectId] from a
    string ([None] when [bson] refuses it), and the helpers of [auth]: the
    hash depends on a salt drawn per call, and [verify_password] is applied
    to an unvalidated value, so it may raise. *)
Class Externals : Type := {
  py_str : Value -> string;
  exn_str : PyExn -> string;
  ObjectId_of_str : string -> option N;
  get_password_hash : N -> string -> string;
  verify_password : Value -> Value -> Result bool;
  create_access_token : Doc -> string
}.

Section Handlers.

Context `{!Externals}.

Definition ObjectId (s : string) : Result N :=
  match ObjectId_of_str s with
  | Some o => Return o
  | None => Raise (InvalidId s)
  end.

(** [try: body except Exception as e: raise HTTPException(500, str(e))];
    [HTTPException] is itself an [Exception]. *)
Definition try_except {A} (body : M A) : M A := fun w =>
  match body w with
  | (Return a, w') => (Return a, w')
  | (Raise e, w') => (Raise (HTTPException 500 (exn_str e)), w')
  end.

(** [task["id"] = str(task.pop("_id"))] *)
Definition pop_id (task : Doc) : Result Doc :=
  match task !! "_id" with
  | Some v => Return (<["id" := VStr (py_str v)]> (delete "_id" task))
  | None => Raise (KeyError "_id")
  end.

Definition pop_id_opt (task : option Doc) : Result Doc :=
  match task with
  | Some d => pop_id d
  | None => Raise AttributeError
  end.

Definition register_user (user : UserCreate) (now : Z) (salt : N) : M Doc :=
  try_except (
    found ← db.users_find_one (Mongo.Fields {[ "email" := VStr (email user) ]});
    if truthy found then raise (HTTPException 400 "Email already registered")
    else
      oid ← new_ObjectId;
      let user_dict : Doc :=
        {[ "_id" := VOid oid;
           "username" := VStr (username user);
           "firstName" := VStr (firstName user);
           "lastName" := VStr (lastName user);
           "email" := VStr (email user);
           "phoneNumber" := VStr (phoneNumber user);
           "hashed_password" := VStr (get_password_hash salt (password user));
           "created_at" := VDate now ]} in
      _ ← db.users_insert_one user_dict;
      id ← lift (getitem user_dict "_id");
      username ← lift (getitem user_dict "username");
      firstName ← lift (getitem user_dict "firstName");
      lastName ← lift (getitem user_dict "lastName");
      email ← lift (getitem user_dict "email");
      phoneNumber ← lift (getitem user_dict "phoneNumber");
      created_at ← lift (getitem user_dict "created_at");
      mret ({[ "id" := VStr (py_str id);
               "username" := username;
               "firstName" := firstName;
               "lastName" := lastName;
               "email" := email;
               "phoneNumber" := phoneNumber;
               "created_at" := created_at ]} : Doc)).

Definition login (credentials : Doc) : M Doc :=
  try_except (
    let emailOrUsername := get credentials "emailOrUsername" in
    let password := get credentials "password" in
    db_user ← db.users_find_one
      (Mongo.Or [Mongo.Fields {[ "email" := emailOrUsername ]};
                 Mongo.Fields {[ "username" := emailOrUsername ]}]);
    refused ←
      (if negb (truthy db_user) then mret true
       else
         hashed ← lift (getitem_opt db_user "hashed_password");
         verified ← lift (verify_password password hashed);
         mret (negb verified));
    if (refused : bool) then
      raise (HTTPException 401 "Incorrect email/username or password")
    else
      sub ← lift (getitem_opt db_user "email");
      let access_token := create_access_token {[ "sub" := sub ]} in
      mret ({[ "access_token" := VStr access_token;
               "token_type" := VStr "bearer" ]} : Doc)).

Definition create_task (task : Model) (current_user : Doc) (now : Z) : M Doc :=
  try_except (
    let task_dict := dict task in
    uid ← lift (getitem current_user "_id");
    let task_dict := <["user_id" := VStr (py_str uid)]> task_dict in
    let task_dict := <["created_at" := VDate now]> task_dict in
    oid ← new_ObjectId;
    let task_dict := <["_id" := VOid oid]> task_dict in
    _ ← db.tasks_insert_one task_dict;
    _id ← lift (getitem task_dict "_id");
    created_task ← db.tasks_find_one (Mongo.Fields {[ "_id" := _id ]});
    lift (pop_id_opt created_task)).

Definition update_task (task_id : string) (task_update : Model)
    (current_user : Doc) (now : Z) : M Doc :=
  try_except (
    task_oid ← lift (ObjectId task_id);
    uid ← lift (getitem current_user "_id");
    task ← db.tasks_find_one
      (Mongo.Fields {[ "_id" := VOid task_oid;
                       "user_id" := VStr (py_str uid) ]});
    if negb (truthy task) then raise (HTTPException 404 "Task not found")
    else
      let update_data := dict_exclude_unset task_update in
      let update_data := <["updated_at" := VDate now]> update_data in
      _ ← db.tasks_update_one
            (Mongo.Fields {[ "_id" := VOid task_oid ]}) update_data;
      updated_task ← db.tasks_find_one (Mongo.Fields {[ "_id" := VOid task_oid ]});
      lift (pop_id_opt updated_task)).

Definition delete_task (task_id : string) (current_user : Doc) : M Doc :=
  try_except (
    task_oid ← lift (ObjectId task_id);
    uid ← lift (getitem current_user "_id");
    task ← db.tasks_find_one
      (Mongo.Fields {[ "_id" := VOid task_oid;
                       "user_id" := VStr (py_str uid) ]});
    if negb (truthy task) then raise (HTTPException 404 "Task not found")
    else
      _ ← db.tasks_delete_one (Mongo.Fields {[ "_id" := VOid task_oid ]});
      mret ({[ "message" := VStr "Task deleted successfully" ]} : Doc)).

(** The [async for] loop of [get_tasks]. *)
Fixpoint collect (cursor : list Doc) : Result (list Doc) :=
  match cursor with
  | [] => Return []
  | task :: rest =>
      match pop_id task with
      | Return task' =>
          match collect rest with
          | Return tasks => Return (task' :: tasks)
          | Raise e => Raise e
          end
      | Raise e => Raise e
      end
  end.

(** The query document [get_tasks] builds from its parameters. *)
Definition tasks_query (uid : Value) (category priority : option string)
    (completed : option bool) (due_date : option string) : Doc :=
  let query : Doc := {[ "user_id" := VStr (py_str uid) ]} in
  let query :=
    match category with
    | Some c => if truthy_str c then <["category" := VStr c]> query else query
    | None => query
    end in
  let query :=
    match priority with
    | Some p => if truthy_str p then <["priority" := VStr p]> query else query
    | None => query
    end in
  let query :=
    match completed with
    | Some b => <["completed" := VBool b]> query
    | None => query
    end in
  match due_date with
  | Some s => if truthy_str s then <["due_date" := VStr s]> query else query
  | None => query
  end.

Definition get_tasks (current_user : Doc) (page limit : Z)
    (category priority : option string) (completed : option bool)
    (due_date : option string) : M Listing.t :=
  try_except (
    let skip := ((page - 1) * limit)%Z in
    uid ← lift (getitem current_user "_id");
    let query := tasks_query uid category priority completed due_date in
    total ← db.tasks_count_documents (Mongo.Fields query);
    cursor ← db.tasks_find (Mongo.Fields query) skip limit;
    tasks ← lift (collect cursor);
    mret {| Listing.tasks := tasks; Listing.total := total;
            Listing.page := page; Listing.limit := limit |}).

(** *** The routes *)

(** A route runs its handler and passes the outcome through [serve]; the
    caller of a protected route is the user document resolved from the
    bearer token. *)
Definition route {A B} (response_model : A -> option B) (handler : M A)
  : World -> Response B * World := fun w =>
  let '(r, w') := handler w in (serve response_model r, w').

(** [POST /api/auth/register], [response_model=User] *)
Definition api_auth_register (user : UserCreate) (now : Z) (salt : N) :=
  route User (register_user user now salt).

(** [POST /api/auth/login], [response_model=Token] *)
Definition api_auth_login (credentials : Doc) :=
  route Token (login credentials).

(** [POST /api/tasks], [response_model=Task] *)
Definition api_tasks_post (body : TaskJson) (current_user : Doc) (now : Z)
  : World -> Response Doc * World := fun w =>
  match TaskCreate body with
  | Some task => route Task (create_task task current_user now) w
  | None => (unprocessable, w)
  end.

(** [PUT /api/tasks/{task_id}], [response_model=Task] *)
Definition api_tasks_put (task_id : string) (body : TaskJson)
    (current_user : Doc) (now : Z) : World -> Response Doc * World := fun w =>
  match TaskUpdate body with
  | Some task_update =>
      route Task (update_task task_id task_update current_user now) w
  | None => (unprocessable, w)
  end.

(** [DELETE /api/tasks/{task_id}] *)
Definition api_tasks_delete (task_id : string) (current_user : Doc) :=
  route Some (delete_task task_id current_user).

(** [GET /api/tasks] *)
Definition api_tasks_get (current_user : Doc) (page limit : Z)
    (category priority : option string) (completed : option bool)
    (due_date : option string) :=
  route Some
    (get_tasks current_user page limit category priority completed due_date).

(** The store after a request, and after a sequence of requests. *)
Definition handle (r : Request) (w : World) : World :=
  match r with
  | Register user now salt => snd (api_auth_register user now salt w)
  | Login credentials => snd (api_auth_login credentials w)
  | PostTask body cu now => snd (api_tasks_post body cu now w)
  | PutTask task_id body cu now => snd (api_tasks_put task_id body cu now w)
  | DeleteTask task_id cu => snd (api_tasks_delete task_id cu w)
  | GetTasks cu page limit category priority completed due_date =>
      snd (api_tasks_get cu page limit category priority completed due_date w)
  end.

Definition run (rs : list Request) (w : World) : World :=
  foldl (fun w r => handle r w) w rs.

(** *** Outcomes

    What the [except] clause makes of an exception, and the exception the
    task handlers raise for a task they do not find. *)
Definition server_fault {A} (e : PyExn) (w : World) : Result A * World :=
  (Raise (HTTPException 500 (exn_str e)), w).

Definition not_found : PyExn := HTTPException 404 "Task not found".

Definition conflict : PyExn := HTTPException 400 "Email already registered".

Definition unauthenticated : PyExn :=
  HTTPException 401 "Incorrect email/username or password".

(** The documents [register_user] stores and returns. *)
Definition user_dict (oid : N) (user : UserCreate) (now : Z) (salt : N) : Doc :=
  {[ "_id" := VOid oid;
     "username" := VStr (username user);
     "firstName" := VStr (firstName user);
     "lastName" := VStr (lastName user);
     "email" := VStr (email user);
     "phoneNumber" := VStr (phoneNumber user);
     "hashed_password" := VStr (get_password_hash salt (password user));
     "created_at" := VDate now ]}.

Definition user_view (oid : N) (user : UserCreate) (now : Z) : Doc :=
  {[ "id" := VStr (py_str (VOid oid));
     "username" := VStr (username user);
     "firstName" := VStr (firstName user);
     "lastName" := VStr (lastName user);
     "email" := VStr (email user);
     "phoneNumber" := VStr (phoneNumber user);
     "created_at" := VDate now ]}.

(** The document [create_task] stores. *)
Definition task_dict (oid : N) (uid : Value) (task : Model) (now : Z) : Doc :=
  <["_id" := VOid oid]>
    (<["created_at" := VDate now]>
       (<["user_id" := VStr (py_str uid)]> (dict task))).

(** The document a stored task becomes under [update_task]. *)
Definition updated (task_update : Model) (now : Z) (task : Doc) : Doc :=
  <["updated_at" := VDate now]> (dict_exclude_unset task_update) ∪ task.



(** The query of [login] and the token it returns. *)
Definition login_query (emailOrUsername : Value) : Mongo.Filter :=
  Mongo.Or [Mongo.Fields {[ "email" := emailOrUsername ]};
            Mongo.Fields {[ "username" := emailOrUsername ]}].

Definition bearer (sub : Value) : Doc :=
  {[ "access_token" := VStr (create_access_token {[ "sub" := sub ]});
     "token_type" := VStr "bearer" ]}.

End Handlers.

(** ** A reference instance of the imported helpers

    Enough of [bson], [str] and [auth] to run the handlers on concrete
    requests: object identifiers print as 24 hexadecimal digits, exceptions
    print their message. *)
Module Ref.

Definition hex_digit (n : N) : ascii :=
  match n with
  | 0 => "0" | 1 => "1" | 2 => "2" | 3 => "3" | 4 => "4" | 5 => "5"
  | 6 => "6" | 7 => "7" | 8 => "8" | 9 => "9" | 10 => "a" | 11 => "b"
  | 12 => "c" | 13 => "d" | 14 => "e" | _ => "f"
  end%N%char.

Fixpoint hex (digits : nat) (n : N) (acc : string) : string :=
  match digits with
  | O => acc
  | S digits' => hex digits' (n / 16)%N (String (hex_digit (n mod 16)%N) acc)
  end.

Definition ObjectId_str (o : N) : string := hex 24 o EmptyString.

Definition hex_value (a : ascii) : option N :=
  let n := N_of_ascii a in
  if (48 <=? n)%N && (n <=? 57)%N then Some (n - 48)%N
  else if (97 <=? n)%N && (n <=? 102)%N then Some (n - 87)%N
  else if (65 <=? n)%N && (n <=? 70)%N then Some (n - 55)%N
  else None.

Fixpoint parse_hex (s : string) (acc : N) : option N :=
  match s with
  | EmptyString => Some acc
  | String a rest =>
      match hex_value a with
      | Some v => parse_hex rest (16 * acc + v)%N
      | None => None
      end
  end.

Definition ObjectId_parse (s : string) : option N :=
  if Nat.eqb (String.length s) 24 then parse_hex s 0%N else None.

Definition str (v : Value) : string :=
  match v with
  | VNone => "None"
  | VStr s => s
  | VBool true => "True"
  | VBool false => "False"
  | VInt z => pretty z
  | VDate t => pretty t
  | VOid o => ObjectId_str o
  end.

Definition str_exn (e : PyExn) : string :=
  match e with
  | HTTPException c d => pretty c +:+ ": " +:+ d
  | InvalidId s => s +:+ " is not a valid ObjectId"
  | DuplicateKeyError => "duplicate key error"
  | KeyError k => k
  | AttributeError => "NoneType object has no attribute"
  | ValueError => "skip must be >= 0"
  | OtherError m => m
  end.

(** Modelled from the spec: [get_password_hash] of the absent [auth]
    module, a salted transform whose digests differ from salt to salt and
    verify against their plaintext. The salt is written in front of the
    plaintext, as that many marks and a separator; that the real transform
    cannot be inverted is not modelled. *)
Fixpoint salted (marks : nat) (plain : string) : string :=
  match marks with
  | O => String "$" plain
  | S marks' => String "s" (salted marks' plain)
  end.

Definition hash (salt : N) (plain : string) : string :=
  salted (N.to_nat salt) plain.

Fixpoint after_dollar (s : string) : option string :=
  match s with
  | EmptyString => None
  | String a rest =>
      if Ascii.eqb a "$"%char then Some rest else after_dollar rest
  end.

(** Modelled from the spec: [verify_password] of the absent [auth] module;
    it answers false on a digest it cannot read and never raises on one.
    What it does with a plaintext that is not a string the spec does not
    say: here it raises. *)
Definition verify (plain hashed : Value) : Result bool :=
  match plain, hashed with
  | VStr p, VStr h => Return (bool_decide (after_dollar h = Some p))
  | VStr _, _ => Return false
  | _, _ => Raise (OtherError "secret must be a string")
  end.

(** Modelled from the spec: [create_access_token] of the absent [auth]
    module, a token that carries the subject claim; signature and expiry
    are left out. *)
Definition token (data : Doc) : string := "sub=" +:+ str (get data "sub").

Definition externals : Externals := {|
  py_str := str;
  exn_str := str_exn;
  ObjectId_of_str := ObjectId_parse;
  get_password_hash := hash;
  verify_password := verify;
  create_access_token := token
|}.

(** *** Example requests and the stores they lead to *)

#[local] Existing Instance externals.

Definition world0 : World := {| users := []; tasks := []; next_oid := 1 |}.

Definition alice : UserCreate :=
  {| username := "alice"; firstName := "Alice"; lastName := "Liddell";
     email := "alice@example.com"; phoneNumber := "555-0100";
     password := "rabbit" |}.

Definition bob : UserCreate :=
  {| username := "bob"; firstName := "Bob"; lastName := "Builder";
     email := "bob@example.com"; phoneNumber := "555-0101";
     password := "hammer" |}.

(** A second account that reuses the username [alice]. *)
Definition alice2 : UserCreate :=
  {| username := "alice"; firstName := "Alice"; lastName := "Cooper";
     email := "cooper@example.com"; phoneNumber := "555-0102";
     password := "poison" |}.


Definition alice_doc : Doc := user_dict 1 alice 1000 1.
Definition bob_doc : Doc := user_dict 2 bob 1100 2.
Definition alice2_doc : Doc := user_dict 3 alice2 1200 3.

(** Alice and Bob registered; then the second [alice]. *)
Definition world1 : World := snd (api_auth_register alice 1000 1 world0).
Definition world2 : World := snd (api_auth_register bob 1100 2 world1).
Definition world3 : World := snd (api_auth_register alice2 1200 3 world2).

Definition report : TaskJson :=
  {| j_title := Given "Write report"; j_description := Unset;
     j_category := Given "work"; j_priority := Given "high";
     j_due_date := Unset; j_completed := Unset |}.

Definition done_body : TaskJson :=
  {| j_title := Given "Write report"; j_description := Unset;
     j_category := Unset; j_priority := Unset;
     j_due_date := Unset; j_completed := Given true |}.

(** Alice's tasks 4, 5 and 6, and Bob's task 7. *)
Definition world4 : World := snd (api_tasks_post report alice_doc 2000 world3).
Definition world5 : World :=
  snd (api_tasks_post (title_only "Buy milk") alice_doc 2100 world4).
Definition world6 : World :=
  snd (api_tasks_post (title_only "Call home") alice_doc 2200 world5).
Definition world7 : World :=
  snd (api_tasks_post (title_only "Fix fence") bob_doc 2300 world6).

Definition report_doc : Doc :=
  {[ "_id" := VOid 4; "title" := VStr "Write report"; "description" := VNone;
     "category" := VStr "work"; "priority" := VStr "high";
     "due_date" := VNone; "user_id" := VStr "000000000000000000000001";
     "created_at" := VDate 2000 ]}.

Definition report_id : string := "000000000000000000000004".

(** A well-formed identifier that no task carries. *)
Definition missing_id : string := "000000000000000000000063".

Definition credentials (emailOrUsername password : string) : Doc :=
  {[ "emailOrUsername" := VStr emailOrUsername; "password" := VStr password ]}.

(** What a listing shows of its tasks: their categories, and the total. *)
Definition categories (r : Response Listing.t)
  : option (list (option Value) * nat) :=
  match r with
  | Ok l => Some ((fun d : Doc => d !! "category") <$> Listing.tasks l,
                  Listing.total l)
  | Error _ _ => None
  end.

End Ref.

(** ** Well-formed stores *)

(** A stored task as the handlers leave it: the required fields of the
    [Task] model are there, and every other field, when present, holds a
    value of its declared type or [None]. *)
Record task_typed (d : Doc) : Prop := {
  typed_title : exists s, d !! "title" = Some (VStr s);
  typed_user_id : exists s, d !! "user_id" = Some (VStr s);
  typed_created_at : exists t, d !! "created_at" = Some (VDate t);
  typed_description :
    forall v, d !! "description" = Some v -> opt is_str v = true;
  typed_category : forall v, d !! "category" = Some v -> opt is_str v = true;
  typed_priority : forall v, d !! "priority" = Some v -> opt is_str v = true;
  typed_due_date : forall v, d !! "due_date" = Some v -> opt is_date v = true;
  typed_completed : forall v, d !! "completed" = Some v -> opt is_bool v = true;
  typed_updated_at :
    forall v, d !! "updated_at" = Some v -> opt is_date v = true
}.

(** The [_id] of a document is an [ObjectId] handed out earlier. *)
Definition has_oid_below (n : N) (d : Doc) : Prop :=
  exists o, d !! "_id" = Some (VOid o) /\ (o < n)%N.

(** What the store guarantees between requests: identifiers come from
    [ObjectId()], no two tasks share one, and tasks are typed. *)
Record wf (w : World) : Prop := {
  wf_users_oid : Forall (has_oid_below (next_oid w)) (users w);
  wf_tasks_oid : Forall (has_oid_below (next_oid w)) (tasks w);
  wf_tasks_unique : NoDup (Mongo.key_of "_id" <$> tasks w);
  wf_tasks_typed : Forall task_typed (tasks w)
}.


(** What a listing selects: the owner's tasks that carry each filter value
    that counts as supplied, an empty string not being one. *)
Definition string_filter (k : string) (f : option string) (d : Doc) : Prop :=
  match f with
  | Some s => s = EmptyString \/ d !! k = Some (VStr s)
  | None => True
  end.

Definition bool_filter (k : string) (f : option bool) (d : Doc) : Prop :=
  match f with
  | Some b => d !! k = Some (VBool b)
  | None => True
  end.

Definition selected (owner : string) (category priority : option string)
    (completed : option bool) (due_date : option string) (d : Doc) : Prop :=
  d !! "user_id" = Some (VStr owner) /\
  string_filter "category" category d /\
  string_filter "priority" priority d /\
  bool_filter "completed" completed d /\
  string_filter "due_date" due_date d.

#[global] Instance string_filter_dec k f d : Decision (string_filter k f d).
Proof. unfold string_filter. destruct f; apply _. Defined.

#[global] Instance bool_filter_dec k f d : Decision (bool_filter k f d).
Proof. unfold bool_filter. destruct f; apply _. Defined.

#[global] Instance selected_dec owner category priority completed due_date d :
  Decision (selected owner category priority completed due_date d).
Proof. unfold selected. apply _. Defined.

(** One [if] of the query construction in [get_tasks]. *)
Definition add_str (k : string) (f : option string) (query : Doc) : Doc :=
  match f with
  | Some s => if truthy_str s then <[k := VStr s]> query else query
  | None => query
  end.

Definition add_bool (k : string) (f : option bool) (query : Doc) : Doc :=
  match f with
  | Some b => <[k := VBool b]> query
  | None => query
  end.

(** The largest page number worth asking for: [ceil(total / limit)]. *)
Definition page_count (total limit : nat) : nat := (total + limit - 1) / limit.

(** ** Observations on requests and stores *)

(** The store before any request. *)
Definition empty_store (n : N) : World :=
  {| users := []; tasks := []; next_oid := n |}.

(** What identifies a task and is fixed when it is created. *)
Definition identity (d : Doc) : option Value * option Value * option Value :=
  (d !! "_id", d !! "user_id", d !! "created_at").

(** A stored user as [register_user] leaves it. *)
Record user_typed (d : Doc) : Prop := {
  user_email : exists s, d !! "email" = Some (VStr s);
  user_username : exists s, d !! "username" = Some (VStr s);
  user_hashed_password : exists s, d !! "hashed_password" = Some (VStr s)
}.

(** The users collection: no email twice, every document typed. *)
Record users_ok (w : World) : Prop := {
  users_emails_unique : NoDup (Mongo.key_of "email" <$> users w);
  users_typed : Forall user_typed (users w)
}.

(** The fields of the [Task] response model. *)
Definition Task_fields : gset string :=
  {[ "title"; "description"; "category"; "priority"; "due_date"; "id";
     "user_id"; "completed"; "created_at"; "updated_at" ]}.

(** The value the [Task] model gives a field the document lacks. *)
Definition Task_default (k : string) : Value :=
  if decide (k = "priority") then VStr "medium"
  else if decide (k = "completed") then VBool false
  else VNone.

Section Observations.

Context `{!Externals}.

(** The status of the reply to a request. *)
Definition reply_status (r : Request) (w : World) : nat :=
  match r with
  | Register user now salt => status (fst (api_auth_register user now salt w))
  | Login credentials => status (fst (api_auth_login credentials w))
  | PostTask body cu now => status (fst (api_tasks_post body cu now w))
  | PutTask task_id body cu now =>
      status (fst (api_tasks_put task_id body cu now w))
  | DeleteTask task_id cu => status (fst (api_tasks_delete task_id cu w))
  | GetTasks cu page limit category priority completed due_date =>
      status
        (fst (api_tasks_get cu page limit category priority completed
                due_date w))
  end.

(** The tasks a listing query finds in a store. *)
Definition listed (uid : Value) (category priority : option string)
    (completed : option bool) (due_date : option string) (w : World)
  : list Doc :=
  Mongo.find
    (Mongo.Fields (tasks_query uid category priority completed due_date))
    (tasks w).

End Observations.

(** Decides a closed decidable proposition by evaluation. *)
Ltac by_evaluation := apply (bool_decide_unpack _); vm_compute; exact I.

(** Unfolds the monad and the store operations of a handler body. *)
Ltac run_handler :=
  unfold try_except, ObjectId, mbind, M_bind, mret, M_ret, lift, raise,
    getitem_opt, getitem,
    db.users_find_one, db.users_insert_one, db.tasks_find_one,
    db.tasks_insert_one, db.tasks_update_one, db.tasks_delete_one,
    db.tasks_count_documents, db.tasks_find, new_ObjectId;
  simpl.

Section Properties.

Context `{!Externals}.

(** *** Queries *)

Lemma field_matches_value (d : Doc) k v :
  v <> VNone -> Mongo.field_matches d k v <-> d !! k = Some v.
Proof.
  unfold Mongo.field_matches. intros Hv.
  destruct (d !! k) as [w|]; split; intros Hm; congruence.
Qed.

Lemma matches_Fields (q d : Doc) :
  Mongo.matches (Mongo.Fields q) d = true <->
  map_Forall (Mongo.field_matches d) q.
Proof. simpl. apply bool_decide_eq_true. Qed.

Lemma matches_singleton (d : Doc) k v :
  v <> VNone ->
  Mongo.matches (Mongo.Fields {[ k := v ]}) d = true <-> d !! k = Some v.
Proof.
  intros Hv. rewrite matches_Fields, map_Forall_singleton.
  by apply field_matches_value.
Qed.

Lemma matches_id_owner (d : Doc) o s :
  Mongo.matches
    (Mongo.Fields {[ "_id" := VOid o; "user_id" := VStr s ]}) d = true <->
  d !! "_id" = Some (VOid o) /\ d !! "user_id" = Some (VStr s).
Proof.
  rewrite matches_Fields, map_Forall_insert by done.
  rewrite map_Forall_singleton, !field_matches_value by done. tauto.
Qed.

Lemma find_one_None q coll :
  Mongo.find_one q coll = None <->
  Forall (fun d => Mongo.matches q d = false) coll.
Proof.
  induction coll as [|d coll IH]; simpl.
  - split; [constructor | done].
  - destruct (Mongo.matches q d) eqn:E.
    + split; [done | intros Hall; inversion Hall; congruence].
    + rewrite IH. split; [by constructor | by inversion 1].
Qed.


Lemma find_one_first q l1 d l2 :
  Forall (fun d' => Mongo.matches q d' = false) l1 ->
  Mongo.matches q d = true ->
  Mongo.find_one q (l1 ++ d :: l2)%list = Some d.
Proof.
  induction 1 as [|d' l1 Hd' _ IH]; simpl; intros Hd.
  - by rewrite Hd.
  - rewrite Hd'. by apply IH.
Qed.

Lemma update_one_first q upd l1 d l2 :
  Forall (fun d' => Mongo.matches q d' = false) l1 ->
  Mongo.matches q d = true ->
  Mongo.update_one q upd (l1 ++ d :: l2)%list = (l1 ++ (upd ∪ d) :: l2)%list.
Proof.
  induction 1 as [|d' l1 Hd' _ IH]; simpl; intros Hd.
  - by rewrite Hd.
  - rewrite Hd'. by rewrite IH.
Qed.

Lemma delete_one_first q l1 d l2 :
  Forall (fun d' => Mongo.matches q d' = false) l1 ->
  Mongo.matches q d = true ->
  Mongo.delete_one q (l1 ++ d :: l2)%list = (l1 ++ l2)%list.
Proof.
  induction 1 as [|d' l1 Hd' _ IH]; simpl; intros Hd.
  - by rewrite Hd.
  - rewrite Hd'. by rewrite IH.
Qed.

(** *** The handlers, case by case *)

Lemma delete_task_eq task_id cu w :
  delete_task task_id cu w =
  match ObjectId_of_str task_id with
  | None => server_fault (InvalidId task_id) w
  | Some o =>
      match cu !! "_id" with
      | None => server_fault (KeyError "_id") w
      | Some uid =>
          if truthy (Mongo.find_one
                       (Mongo.Fields {[ "_id" := VOid o;
                                        "user_id" := VStr (py_str uid) ]})
                       (tasks w))
          then (Return {[ "message" := VStr "Task deleted successfully" ]},
                {| users := users w;
                   tasks := Mongo.delete_one
                              (Mongo.Fields {[ "_id" := VOid o ]}) (tasks w);
                   next_oid := next_oid w |})
          else server_fault not_found w
      end
  end.
Proof.
  unfold delete_task, server_fault, not_found. run_handler.
  destruct (ObjectId_of_str task_id) as [o|]; [|done].
  destruct (cu !! "_id") as [uid|]; [|done].
  by destruct (truthy _).
Qed.

Lemma update_task_eq task_id m cu now w :
  update_task task_id m cu now w =
  match ObjectId_of_str task_id with
  | None => server_fault (InvalidId task_id) w
  | Some o =>
      match cu !! "_id" with
      | None => server_fault (KeyError "_id") w
      | Some uid =>
          if truthy (Mongo.find_one
                       (Mongo.Fields {[ "_id" := VOid o;
                                        "user_id" := VStr (py_str uid) ]})
                       (tasks w))
          then
            let w' :=
              {| users := users w;
                 tasks := Mongo.update_one
                            (Mongo.Fields {[ "_id" := VOid o ]})
                            (<["updated_at" := VDate now]> (dict_exclude_unset m))
                            (tasks w);
                 next_oid := next_oid w |} in
            match pop_id_opt (Mongo.find_one
                                (Mongo.Fields {[ "_id" := VOid o ]}) (tasks w')) with
            | Return r => (Return r, w')
            | Raise e => server_fault e w'
            end
          else server_fault not_found w
      end
  end.
Proof.
  unfold update_task, server_fault, not_found. run_handler.
  destruct (ObjectId_of_str task_id) as [o|]; [|done].
  destruct (cu !! "_id") as [uid|]; [|done].
  destruct (truthy _); simpl; [|done].
  by destruct (pop_id_opt _).
Qed.

Lemma get_tasks_eq cu page limit category priority completed due_date w :
  get_tasks cu page limit category priority completed due_date w =
  match cu !! "_id" with
  | None => server_fault (KeyError "_id") w
  | Some uid =>
      let q := Mongo.Fields
                 (tasks_query uid category priority completed due_date) in
      match Mongo.skip_limit ((page - 1) * limit) limit
              (Mongo.find q (tasks w)) with
      | Raise e => server_fault e w
      | Return cursor =>
          match collect cursor with
          | Raise e => server_fault e w
          | Return ts =>
              (Return {| Listing.tasks := ts;
                         Listing.total := Mongo.count_documents q (tasks w);
                         Listing.page := page;
                         Listing.limit := limit |}, w)
          end
      end
  end.
Proof.
  unfold get_tasks, server_fault. run_handler.
  destruct (cu !! "_id") as [uid|]; [|done].
  destruct (Mongo.skip_limit _ _ _) as [cursor|e]; simpl; [|done].
  by destruct (collect cursor).
Qed.

(** *** Rendering of stored documents *)

Lemma pop_id_lookup (d r : Doc) k :
  pop_id d = Return r -> k <> "id" -> k <> "_id" -> r !! k = d !! k.
Proof.
  unfold pop_id. destruct (d !! "_id") as [v|]; [|done].
  intros [= <-] Hid H_id. by rewrite lookup_insert_ne, lookup_delete_ne.
Qed.

Lemma pop_id_Return (d : Doc) v :
  d !! "_id" = Some v ->
  pop_id d = Return (<["id" := VStr (py_str v)]> (delete "_id" d)).
Proof. unfold pop_id. by intros ->. Qed.

Lemma collect_Forall2 cursor ts :
  collect cursor = Return ts <->
  Forall2 (fun d r => pop_id d = Return r) cursor ts.
Proof.
  revert ts. induction cursor as [|d cursor IH]; intros ts; simpl.
  - split; [intros [= <-]; constructor | by inversion 1].
  - destruct (pop_id d) as [r|e] eqn:Er.
    + destruct (collect cursor) as [rs|e] eqn:Ers.
      * split.
        -- intros [= <-]. constructor; [done | by apply IH].
        -- inversion 1 as [|? r' ? rs' Hr Hrs]; subst.
           apply IH in Hrs. congruence.
      * split; [done|]. inversion 1 as [|? r' ? rs' Hr Hrs]; subst.
        apply IH in Hrs. congruence.
    + split; [done|]. inversion 1; congruence.
Qed.

Lemma collect_total cursor :
  Forall (fun d => is_Some (d !! "_id")) cursor ->
  exists ts, collect cursor = Return ts.
Proof.
  induction 1 as [|d cursor [v Hv] _ [ts IH]]; simpl.
  - by eexists.
  - rewrite (pop_id_Return d v Hv), IH. by eexists.
Qed.

(** *** The window of a cursor *)

Lemma skip_limit_elem s n (l c : list Doc) d :
  Mongo.skip_limit s n l = Return c -> d ∈ c -> d ∈ l.
Proof.
  unfold Mongo.skip_limit. destruct (s <? 0)%Z; [done|].
  intros [= <-] Hd. destruct (n =? 0)%Z.
  - by eapply subseteq_drop.
  - by eapply subseteq_drop, subseteq_take.
Qed.

(** *** The query of [get_tasks] *)

Lemma tasks_query_user uid category priority completed due_date :
  tasks_query uid category priority completed due_date !! "user_id"
  = Some (VStr (py_str uid)).
Proof.
  unfold tasks_query.
  destruct category as [c|], priority as [p|], completed as [b|],
    due_date as [s|]; repeat case_match; by simplify_map_eq.
Qed.

Lemma tasks_query_owner uid category priority completed due_date (d : Doc) :
  Mongo.matches
    (Mongo.Fields (tasks_query uid category priority completed due_date)) d
  = true ->
  d !! "user_id" = Some (VStr (py_str uid)).
Proof.
  rewrite matches_Fields. intros Hall.
  apply (field_matches_value d "user_id" (VStr (py_str uid))); [done|].
  apply (Hall "user_id"), tasks_query_user.
Qed.

(** *** Tasks the caller does not own *)

Lemma unique_id (coll : list Doc) (d d' : Doc) :
  NoDup (Mongo.key_of "_id" <$> coll) ->
  d ∈ coll -> d' ∈ coll -> d !! "_id" = d' !! "_id" -> d = d'.
Proof.
  induction coll as [|x coll IH]; simpl; [by inversion 2|].
  rewrite NoDup_cons. intros [Hx Hnd] Hd Hd' Heq.
  apply elem_of_cons in Hd as [->|Hd]; apply elem_of_cons in Hd' as [->|Hd'].
  - done.
  - destruct Hx. apply list_elem_of_fmap. exists d'.
    split; [|done]. unfold Mongo.key_of. by rewrite Heq.
  - destruct Hx. apply list_elem_of_fmap. exists d.
    split; [|done]. unfold Mongo.key_of. by rewrite Heq.
  - by apply IH.
Qed.

Lemma find_one_unowned (coll : list Doc) o owner :
  (forall d, d ∈ coll -> d !! "_id" = Some (VOid o) ->
             d !! "user_id" <> Some (VStr owner)) ->
  Mongo.find_one
    (Mongo.Fields {[ "_id" := VOid o; "user_id" := VStr owner ]}) coll = None.
Proof.
  intros Hno. apply find_one_None, Forall_forall. intros d Hd.
  apply not_true_is_false. rewrite matches_id_owner.
  intros [Hid Hown]. by apply (Hno d).
Qed.

Lemma delete_unowned task_id (cu : Doc) uid w :
  cu !! "_id" = Some uid ->
  (forall o d, ObjectId_of_str task_id = Some o -> d ∈ tasks w ->
               d !! "_id" = Some (VOid o) ->
               d !! "user_id" <> Some (VStr (py_str uid))) ->
  delete_task task_id cu w =
  server_fault
    (match ObjectId_of_str task_id with
     | Some _ => not_found
     | None => InvalidId task_id
     end) w.
Proof.
  intros Hcu Hno. rewrite delete_task_eq, Hcu.
  destruct (ObjectId_of_str task_id) as [o|]; [|done].
  rewrite find_one_unowned; [done|]. intros d. by apply Hno.
Qed.

Lemma update_unowned task_id m (cu : Doc) uid now w :
  cu !! "_id" = Some uid ->
  (forall o d, ObjectId_of_str task_id = Some o -> d ∈ tasks w ->
               d !! "_id" = Some (VOid o) ->
               d !! "user_id" <> Some (VStr (py_str uid))) ->
  update_task task_id m cu now w =
  server_fault
    (match ObjectId_of_str task_id with
     | Some _ => not_found
     | None => InvalidId task_id
     end) w.
Proof.
  intros Hcu Hno. rewrite update_task_eq, Hcu.
  destruct (ObjectId_of_str task_id) as [o|]; [|done].
  rewrite find_one_unowned; [done|]. intros d. by apply Hno.
Qed.

Lemma collect_elem cursor ts r :
  collect cursor = Return ts -> r ∈ ts ->
  exists d, d ∈ cursor /\ pop_id d = Return r.
Proof.
  rewrite collect_Forall2. induction 1 as [|d r' cursor ts Hd _ IH].
  - by inversion 1.
  - intros [->|Hr]%elem_of_cons.
    + exists d. split; [left | done].
    + destruct (IH Hr) as (d' & Hd' & Hr'). exists d'. split; [by right | done].
Qed.

Lemma get_tasks_snd cu page limit category priority completed due_date w :
  snd (get_tasks cu page limit category priority completed due_date w) = w.
Proof.
  rewrite get_tasks_eq. unfold server_fault.
  destruct (cu !! "_id"); [|done]. simpl.
  destruct (Mongo.skip_limit _ _ _) as [c|]; [|done].
  by destruct (collect c).
Qed.

Lemma get_tasks_owner (cu : Doc) uid page limit category priority completed
    due_date w l w' r :
  cu !! "_id" = Some uid ->
  get_tasks cu page limit category priority completed due_date w
  = (Return l, w') ->
  r ∈ Listing.tasks l -> r !! "user_id" = Some (VStr (py_str uid)).
Proof.
  intros Hcu. rewrite get_tasks_eq, Hcu. unfold server_fault. simpl.
  destruct (Mongo.skip_limit _ _ _) as [c|] eqn:Ec; [|done].
  destruct (collect c) as [ts|] eqn:Ets; [|done].
  intros [= <- <-]. simpl. intros Hr.
  destruct (collect_elem _ _ _ Ets Hr) as (d & Hd & Hdr).
  rewrite (pop_id_lookup d r "user_id" Hdr) by done.
  apply (skip_limit_elem _ _ _ _ _ Ec) in Hd.
  apply list_elem_of_In, filter_In in Hd as [_ Hm].
  by eapply tasks_query_owner.
Qed.

(** *** Claims about tasks the caller does not own *)

(** C1. Ownership isolation: a task of user A, addressed by user B with A's
    exact task id, is not in any page B lists, and B's update and delete
    leave the store as it was. The handlers raise the 404 for it, but the
    reply is a 500: the [except Exception] clause of the same handler
    catches the [HTTPException]. *)
Theorem ownership_isolation w (t cu : Doc) o a b task_id :
  wf w ->
  t ∈ tasks w ->
  t !! "_id" = Some (VOid o) ->
  t !! "user_id" = Some (VStr (py_str a)) ->
  cu !! "_id" = Some b ->
  py_str a <> py_str b ->
  ObjectId_of_str task_id = Some o ->
  (forall page limit category priority completed due_date,
     snd (api_tasks_get cu page limit category priority completed due_date w)
     = w /\
     forall l r,
       fst (api_tasks_get cu page limit category priority completed due_date w)
       = Ok l ->
       pop_id t = Return r -> r ∉ Listing.tasks l) /\
  (forall body now,
     is_Some (TaskUpdate body) ->
     api_tasks_put task_id body cu now w
     = (Error 500 (exn_str not_found), w)) /\
  api_tasks_delete task_id cu w = (Error 500 (exn_str not_found), w).
Proof.
  intros Hwf Ht Hid Hown Hcu Hab Hparse.
  assert (Hno : forall o' d, ObjectId_of_str task_id = Some o' ->
                  d ∈ tasks w -> d !! "_id" = Some (VOid o') ->
                  d !! "user_id" <> Some (VStr (py_str b))).
  { intros o' d Ho' Hd Hdid. assert (o' = o) as -> by congruence.
    rewrite (unique_id (tasks w) d t);
      [congruence | apply Hwf | done.. | congruence]. }
  split; [|split].
  - intros page limit category priority completed due_date.
    unfold api_tasks_get, route.
    pose proof (get_tasks_snd cu page limit category priority completed
                  due_date w) as Hsnd.
    destruct (get_tasks _ _ _ _ _ _ _ w) as [res w'] eqn:Eg.
    simpl in *. split; [done|]. intros l r Hok Hr Hin.
    destruct res as [l'|e]; simpl in Hok; [|by destruct e].
    injection Hok as ->.
    pose proof (get_tasks_owner _ _ _ _ _ _ _ _ _ _ _ _ Hcu Eg Hin) as Hb.
    rewrite (pop_id_lookup t r "user_id" Hr) in Hb by done. congruence.
  - intros body now [m Hm]. unfold api_tasks_put, route. rewrite Hm.
    rewrite (update_unowned _ _ _ _ _ _ Hcu Hno), Hparse. done.
  - unfold api_tasks_delete, route.
    rewrite (delete_unowned _ _ _ _ Hcu Hno), Hparse. done.
Qed.

(** C2. Deleting or updating a task id that does not parse, does not exist
    or belongs to another user: the reply is a 500 whose detail is the text
    of the exception the handler raised, the 404 included, and the store is
    unchanged. *)
Theorem missing_task_is_server_fault task_id (cu : Doc) uid w :
  cu !! "_id" = Some uid ->
  (forall o d, ObjectId_of_str task_id = Some o -> d ∈ tasks w ->
               d !! "_id" = Some (VOid o) ->
               d !! "user_id" <> Some (VStr (py_str uid))) ->
  let e := match ObjectId_of_str task_id with
           | Some _ => not_found
           | None => InvalidId task_id
           end in
  api_tasks_delete task_id cu w = (Error 500 (exn_str e), w) /\
  forall body now,
    is_Some (TaskUpdate body) ->
    api_tasks_put task_id body cu now w = (Error 500 (exn_str e), w).
Proof.
  intros Hcu Hno e. split.
  - unfold api_tasks_delete, route. by rewrite (delete_unowned _ _ _ _ Hcu Hno).
  - intros body now [m Hm]. unfold api_tasks_put, route. rewrite Hm.
    by rewrite (update_unowned _ _ _ _ _ _ Hcu Hno).
Qed.

(** *** Registration and login, case by case *)

Lemma register_user_eq user now salt w :
  register_user user now salt w =
  if truthy (Mongo.find_one (Mongo.Fields {[ "email" := VStr (email user) ]})
               (users w))
  then server_fault conflict w
  else
    let w' := {| users := users w; tasks := tasks w;
                 next_oid := N.succ (next_oid w) |} in
    match Mongo.insert_one ["_id"; "email"]
            (user_dict (next_oid w) user now salt) (users w) with
    | Raise e => server_fault e w'
    | Return l =>
        (Return (user_view (next_oid w) user now),
         {| users := l; tasks := tasks w; next_oid := N.succ (next_oid w) |})
    end.
Proof.
  unfold register_user, server_fault, conflict. run_handler.
  destruct (truthy _); [done|]. fold (user_dict (next_oid w) user now salt).
  destruct (Mongo.insert_one _ _ _); [|done]. simpl.
  unfold user_dict. simplify_map_eq. done.
Qed.

Lemma login_eq credentials w :
  login credentials w =
  let db_user := Mongo.find_one
                   (login_query (get credentials "emailOrUsername")) (users w) in
  if truthy db_user then
    match getitem_opt db_user "hashed_password" with
    | Raise e => server_fault e w
    | Return hashed =>
        match verify_password (get credentials "password") hashed with
        | Raise e => server_fault e w
        | Return false => server_fault unauthenticated w
        | Return true =>
            match getitem_opt db_user "email" with
            | Raise e => server_fault e w
            | Return sub => (Return (bearer sub), w)
            end
        end
    end
  else server_fault unauthenticated w.
Proof.
  unfold login, server_fault, unauthenticated, login_query, bearer.
  unfold try_except, mbind, M_bind, mret, M_ret, lift, raise,
    db.users_find_one. simpl.
  destruct (truthy _); simpl; [|done].
  destruct (getitem_opt _ "hashed_password"); simpl; [|done].
  destruct (verify_password _ _) as [[]|]; simpl; [|done..].
  by destruct (getitem_opt _ "email").
Qed.

Lemma truthy_Some (d : Doc) k v : d !! k = Some v -> truthy (Some d) = true.
Proof.
  intros Hk. unfold truthy. rewrite bool_decide_eq_false_2; [done|].
  intros ->. by rewrite lookup_empty in Hk.
Qed.

Lemma login_query_matches (d : Doc) v :
  v <> VNone ->
  Mongo.matches (login_query v) d = true <->
  d !! "email" = Some v \/ d !! "username" = Some v.
Proof.
  intros Hv. unfold login_query.
  change (Mongo.matches (Mongo.Or ?qs) d)
    with (existsb (fun q' => Mongo.matches q' d) qs).
  cbn [existsb]. rewrite !orb_true_iff, !matches_singleton by done.
  intuition discriminate.
Qed.

(** *** Claims about login *)

(** C4. A login that matches no user, or whose password the matched user's
    hash refuses, by email and by username alike: the handler raises the 401
    and its own [except Exception] clause turns it into a 500. *)
Theorem bad_credentials_is_server_fault credentials w :
  (Mongo.find_one (login_query (get credentials "emailOrUsername")) (users w)
   = None \/
   exists u hashed,
     Mongo.find_one (login_query (get credentials "emailOrUsername")) (users w)
     = Some u /\
     u !! "hashed_password" = Some hashed /\
     verify_password (get credentials "password") hashed = Return false) ->
  api_auth_login credentials w = (Error 500 (exn_str unauthenticated), w).
Proof.
  unfold api_auth_login, route. rewrite login_eq. cbv zeta.
  intros [-> | (u & hashed & -> & Hh & Hv)]; [done|].
  rewrite (truthy_Some u _ _ Hh). unfold getitem_opt, getitem.
  by rewrite Hh, Hv.
Qed.

(** No login is ever answered with 401. *)
Lemma login_never_401 credentials w :
  status (fst (api_auth_login credentials w)) <> 401.
Proof.
  unfold api_auth_login, route. rewrite login_eq. cbv zeta.
  unfold server_fault.
  destruct (truthy _); [|done].
  destruct (getitem_opt _ "hashed_password"); [|done].
  destruct (verify_password _ _) as [[]|]; [|done..].
  destruct (getitem_opt _ "email") as [sub|]; [|done]. simpl.
  by destruct (Token (bearer sub)).
Qed.

Lemma login_accepts w l1 (u : Doc) l2 e n hashed p ident :
  users w = (l1 ++ u :: l2)%list ->
  u !! "email" = Some (VStr e) ->
  u !! "username" = Some (VStr n) ->
  u !! "hashed_password" = Some hashed ->
  verify_password (VStr p) hashed = Return true ->
  ident = e \/ ident = n ->
  Forall (fun d : Doc => d !! "email" <> Some (VStr ident) /\
                         d !! "username" <> Some (VStr ident)) l1 ->
  login {[ "emailOrUsername" := VStr ident; "password" := VStr p ]} w
  = (Return (bearer (VStr e)), w).
Proof.
  intros Hus He Hn Hh Hv Hident Hfirst. rewrite login_eq. cbv zeta.
  replace (get _ "emailOrUsername") with (VStr ident) by done.
  replace (get _ "password") with (VStr p) by done.
  rewrite Hus, find_one_first.
  - rewrite (truthy_Some u _ _ Hh). unfold getitem_opt, getitem.
    by rewrite Hh, Hv, He.
  - eapply Forall_impl; [exact Hfirst|]. intros d [Hde Hdn].
    apply not_true_is_false. rewrite login_query_matches by done. tauto.
  - apply login_query_matches; [done|]. destruct Hident; subst; tauto.
Qed.

(** C8, amended. A stored user who is the first in the collection whose
    email or username equals the identifier logs in with the registered
    email and with the registered username alike, given a password the
    stored hash accepts; the token is made from the subject claim that is
    the user's email. *)
Theorem login_first_match w l1 (u : Doc) l2 e n hashed p ident :
  users w = (l1 ++ u :: l2)%list ->
  u !! "email" = Some (VStr e) ->
  u !! "username" = Some (VStr n) ->
  u !! "hashed_password" = Some hashed ->
  verify_password (VStr p) hashed = Return true ->
  ident = e \/ ident = n ->
  Forall (fun d : Doc => d !! "email" <> Some (VStr ident) /\
                         d !! "username" <> Some (VStr ident)) l1 ->
  api_auth_login
    {[ "emailOrUsername" := VStr ident; "password" := VStr p ]} w
  = (Ok {[ "access_token" := VStr (create_access_token {[ "sub" := VStr e ]});
           "token_type" := VStr "bearer" ]}, w).
Proof.
  intros Hus He Hn Hh Hv Hident Hfirst. unfold api_auth_login, route.
  by rewrite (login_accepts w l1 u l2 e n hashed p ident).
Qed.

(** *** Claims about registration *)

Lemma violates_false unique (d : Doc) coll :
  (forall k d', k ∈ unique -> d' ∈ coll ->
                Mongo.key_of k d' <> Mongo.key_of k d) ->
  Mongo.violates unique d coll = false.
Proof.
  intros Hne. unfold Mongo.violates.
  apply not_true_is_false. rewrite existsb_exists.
  intros (k & Hk & Hex). apply existsb_exists in Hex as (d' & Hd' & Heq).
  apply bool_decide_eq_true in Heq.
  by apply (Hne k d'); [apply list_elem_of_In..|].
Qed.


Lemma register_fresh w user now salt :
  wf w ->
  Forall (fun d : Doc => d !! "email" <> Some (VStr (email user))) (users w) ->
  register_user user now salt w =
  (Return (user_view (next_oid w) user now),
   {| users := (users w ++ [user_dict (next_oid w) user now salt])%list;
      tasks := tasks w;
      next_oid := N.succ (next_oid w) |}).
Proof.
  intros Hwf Hfree. rewrite register_user_eq.
  replace (Mongo.find_one _ (users w)) with (@None Doc).
  2:{ symmetry. apply find_one_None. eapply Forall_impl; [exact Hfree|].
      intros d Hd. apply not_true_is_false. by rewrite matches_singleton. }
  cbn [truthy]. cbv zeta. unfold Mongo.insert_one.
  rewrite violates_false; [done|].
  intros k d' Hk Hd'.
  assert (Hoid : has_oid_below (next_oid w) d').
  { destruct Hwf as [Hu _ _ _]. rewrite Forall_forall in Hu. by apply Hu. }
  rewrite Forall_forall in Hfree. specialize (Hfree d' Hd').
  destruct Hoid as (o & Ho & Hlt).
  unfold Mongo.key_of, user_dict.
  apply elem_of_cons in Hk as [->|Hk].
  - rewrite Ho. simplify_map_eq. simpl. intros [= ->]. lia.
  - apply list_elem_of_singleton in Hk as ->. simplify_map_eq.
    destruct (d' !! "email") as [v|]; simpl; congruence.
Qed.


(** X16. A user just registered, whose email and username no earlier user
    has as email or as username, logs in with either and the password
    registered, provided the hasher accepts the password it hashed; the
    token is made for the email as subject. *)
Lemma registered_user_logs_in w user now salt ident :
  wf w ->
  Forall (fun d : Doc => d !! "email" <> Some (VStr (email user))) (users w) ->
  Forall (fun d : Doc => d !! "email" <> Some (VStr ident) /\
                         d !! "username" <> Some (VStr ident)) (users w) ->
  ident = email user \/ ident = username user ->
  verify_password (VStr (password user))
    (VStr (get_password_hash salt (password user))) = Return true ->
  api_auth_login
    {[ "emailOrUsername" := VStr ident; "password" := VStr (password user) ]}
    (snd (api_auth_register user now salt w))
  = (Ok {[ "access_token" :=
             VStr (create_access_token {[ "sub" := VStr (email user) ]});
           "token_type" := VStr "bearer" ]},
     snd (api_auth_register user now salt w)).
Proof.
  intros Hwf Hfree Hfirst Hident Hv. unfold api_auth_register, api_auth_login.
  unfold route. rewrite (register_fresh w user now salt Hwf Hfree). cbn [snd].
  by rewrite (login_accepts _ (users w) (user_dict (next_oid w) user now salt)
                [] (email user) (username user)
                (VStr (get_password_hash salt (password user)))
                (password user) ident).
Qed.



(** *** Pagination *)


Lemma page_count_covers total L : 0 < L -> total <= page_count total L * L.
Proof.
  intros HL. unfold page_count.
  pose proof (Nat.div_mod (total + L - 1) L ltac:(lia)) as Hdm.
  pose proof (Nat.mod_upper_bound (total + L - 1) L ltac:(lia)) as Hlt.
  nia.
Qed.


Lemma wf_tasks_have_id w :
  wf w -> Forall (fun d : Doc => is_Some (d !! "_id")) (tasks w).
Proof.
  intros [_ Ht _ _]. eapply Forall_impl; [exact Ht|].
  intros d (o & Ho & _). by eexists.
Qed.

Lemma Forall_filter_bool {A} (P : A -> Prop) f (l : list A) :
  Forall P l -> Forall P (List.filter f l).
Proof.
  rewrite !Forall_forall. intros Hall x Hx. apply Hall.
  apply list_elem_of_In. apply list_elem_of_In, filter_In in Hx. tauto.
Qed.


(** *** Filters *)

Lemma add_str_lookup_ne k k' f (q : Doc) :
  k <> k' -> add_str k f q !! k' = q !! k'.
Proof.
  intros Hne. unfold add_str. destruct f as [s|]; [|done].
  destruct (truthy_str s); [|done]. by rewrite lookup_insert_ne.
Qed.

Lemma add_bool_lookup_ne k k' f (q : Doc) :
  k <> k' -> add_bool k f q !! k' = q !! k'.
Proof.
  intros Hne. unfold add_bool. destruct f as [b|]; [|done].
  by rewrite lookup_insert_ne.
Qed.

Lemma map_Forall_add_str (d : Doc) k f (q : Doc) :
  q !! k = None ->
  map_Forall (Mongo.field_matches d) (add_str k f q) <->
  string_filter k f d /\ map_Forall (Mongo.field_matches d) q.
Proof.
  intros Hk. unfold add_str, string_filter, truthy_str.
  destruct f as [s|]; [|tauto].
  destruct (decide (s = EmptyString)) as [->|Hs].
  - rewrite bool_decide_eq_true_2 by done. simpl. tauto.
  - rewrite bool_decide_eq_false_2 by done. simpl.
    rewrite map_Forall_insert, field_matches_value by done. tauto.
Qed.

Lemma map_Forall_add_bool (d : Doc) k f (q : Doc) :
  q !! k = None ->
  map_Forall (Mongo.field_matches d) (add_bool k f q) <->
  bool_filter k f d /\ map_Forall (Mongo.field_matches d) q.
Proof.
  intros Hk. unfold add_bool, bool_filter.
  destruct f as [b|]; [|tauto].
  rewrite map_Forall_insert, field_matches_value by done. tauto.
Qed.

Lemma tasks_query_steps uid category priority completed due_date :
  tasks_query uid category priority completed due_date
  = add_str "due_date" due_date
      (add_bool "completed" completed
         (add_str "priority" priority
            (add_str "category" category
               {[ "user_id" := VStr (py_str uid) ]}))).
Proof. reflexivity. Qed.

Lemma tasks_query_matches uid category priority completed due_date (d : Doc) :
  Mongo.matches
    (Mongo.Fields (tasks_query uid category priority completed due_date)) d
  = true <->
  selected (py_str uid) category priority completed due_date d.
Proof.
  rewrite matches_Fields, tasks_query_steps. unfold selected.
  rewrite map_Forall_add_str, map_Forall_add_bool, !map_Forall_add_str,
    map_Forall_singleton, field_matches_value; [tauto | done | ..].
  - done.
  - by rewrite add_str_lookup_ne.
  - by rewrite add_str_lookup_ne, add_str_lookup_ne.
  - by rewrite add_bool_lookup_ne, add_str_lookup_ne, add_str_lookup_ne.
Qed.



(** *** Creating a task *)

Lemma create_task_eq m cu now w :
  create_task m cu now w =
  match cu !! "_id" with
  | None => server_fault (KeyError "_id") w
  | Some uid =>
      let w1 := {| users := users w; tasks := tasks w;
                   next_oid := N.succ (next_oid w) |} in
      match Mongo.insert_one ["_id"] (task_dict (next_oid w) uid m now)
              (tasks w) with
      | Raise e => server_fault e w1
      | Return l =>
          let w2 := {| users := users w; tasks := l;
                       next_oid := N.succ (next_oid w) |} in
          match pop_id_opt
                  (Mongo.find_one
                     (Mongo.Fields {[ "_id" := VOid (next_oid w) ]}) l) with
          | Return r => (Return r, w2)
          | Raise e => server_fault e w2
          end
      end
  end.
Proof.
  unfold create_task, server_fault. run_handler.
  destruct (cu !! "_id") as [uid|]; [|done]. simpl.
  fold (task_dict (next_oid w) uid m now).
  destruct (Mongo.insert_one _ _ _) as [l|]; [|done]. simpl.
  unfold task_dict at 1. rewrite lookup_insert_eq.
  by destruct (pop_id_opt _).
Qed.

Lemma fresh_id_unmatched n o (coll : list Doc) :
  Forall (has_oid_below n) coll -> (n <= o)%N ->
  Forall (fun d => Mongo.matches (Mongo.Fields {[ "_id" := VOid o ]}) d = false)
    coll.
Proof.
  intros Hall Hle. eapply Forall_impl; [exact Hall|].
  intros d (o' & Ho' & Hlt). apply not_true_is_false.
  rewrite matches_singleton by done. rewrite Ho'. intros [= ->]. lia.
Qed.

Lemma create_fresh m (cu : Doc) uid now w :
  wf w ->
  cu !! "_id" = Some uid ->
  create_task m cu now w =
  (pop_id (task_dict (next_oid w) uid m now),
   {| users := users w;
      tasks := (tasks w ++ [task_dict (next_oid w) uid m now])%list;
      next_oid := N.succ (next_oid w) |}).
Proof.
  intros Hwf Hcu. rewrite create_task_eq, Hcu. cbv zeta.
  pose proof (fresh_id_unmatched _ (next_oid w) _ (wf_tasks_oid w Hwf)
                ltac:(lia)) as Hfresh.
  unfold Mongo.insert_one. rewrite violates_false.
  - rewrite find_one_first; [| done |].
    + simpl. unfold pop_id, task_dict. by rewrite lookup_insert_eq.
    + apply matches_singleton; [done|]. unfold task_dict.
      by rewrite lookup_insert_eq.
  - intros k d' Hk Hd'. apply list_elem_of_singleton in Hk as ->.
    rewrite Forall_forall in Hfresh. specialize (Hfresh d' Hd').
    apply not_true_iff_false in Hfresh. intros Heq. apply Hfresh.
    apply matches_singleton; [done|].
    unfold Mongo.key_of, task_dict in Heq. rewrite lookup_insert_eq in Heq.
    pose proof (wf_tasks_oid w Hwf) as Hall. rewrite Forall_forall in Hall.
    destruct (Hall d' Hd') as (o' & Ho' & _). rewrite Ho' in Heq |- *.
    simpl in Heq. by rewrite Heq.
Qed.

Lemma get_tasks_selected (cu : Doc) uid page limit category priority completed
    due_date w l w' r :
  cu !! "_id" = Some uid ->
  get_tasks cu page limit category priority completed due_date w
  = (Return l, w') ->
  r ∈ Listing.tasks l ->
  exists d,
    d ∈ tasks w /\
    selected (py_str uid) category priority completed due_date d /\
    pop_id d = Return r.
Proof.
  intros Hcu. rewrite get_tasks_eq, Hcu. unfold server_fault. simpl.
  destruct (Mongo.skip_limit _ _ _) as [c|] eqn:Ec; [|done].
  destruct (collect c) as [ts|] eqn:Ets; [|done].
  intros [= <- <-]. simpl. intros Hr.
  destruct (collect_elem _ _ _ Ets Hr) as (d & Hd & Hdr).
  exists d. apply (skip_limit_elem _ _ _ _ _ Ec) in Hd.
  apply list_elem_of_In, filter_In in Hd as [Hd Hm].
  split; [by apply list_elem_of_In|]. split; [|done].
  by apply tasks_query_matches.
Qed.

(** C5. Creating a task from a body that carries only a title: the reply is
    the task with [completed] false, [priority] medium, a fresh [id], the
    caller as [user_id], [created_at] now and no [updated_at]. The stored
    document has no [completed] field (the model of the request has none),
    so no page of a later listing filtered on [completed=false] contains the
    task. *)
Theorem create_title_only w (cu : Doc) uid title now :
  wf w ->
  cu !! "_id" = Some uid ->
  exists t w',
    api_tasks_post (title_only title) cu now w
    = (Ok {[ "id" := VStr (py_str (VOid (next_oid w)));
             "user_id" := VStr (py_str uid);
             "title" := VStr title;
             "description" := VNone;
             "category" := VNone;
             "priority" := VStr "medium";
             "due_date" := VNone;
             "completed" := VBool false;
             "created_at" := VDate now;
             "updated_at" := VNone ]}, w') /\
    tasks w' = (tasks w ++ [t])%list /\
    t !! "_id" = Some (VOid (next_oid w)) /\
    t !! "completed" = None /\
    forall page limit l r,
      fst (api_tasks_get cu page limit None None (Some false) None w') = Ok l ->
      pop_id t = Return r ->
      r ∉ Listing.tasks l.
Proof.
  intros Hwf Hcu. eexists _, _. unfold api_tasks_post, route.
  change (TaskCreate (title_only title)) with
    (Some {| values := {[ "title" := VStr title; "description" := VNone;
                          "category" := VNone; "priority" := VStr "medium";
                          "due_date" := VNone ]};
             fields_set := {[ "title" ]} |}).
  cbv beta iota. rewrite (create_fresh _ _ _ _ _ Hwf Hcu).
  split; [reflexivity|]. split; [reflexivity|].
  split; [reflexivity|]. split; [reflexivity|].
  intros page limit l r Hok Hr Hin.
  unfold api_tasks_get, route in Hok.
  destruct (get_tasks _ _ _ _ _ _ _ _) as [res w''] eqn:Eg.
  destruct res as [l'|e]; simpl in Hok; [|by destruct e].
  injection Hok as ->.
  destruct (get_tasks_selected _ _ _ _ _ _ _ _ _ _ _ _ Hcu Eg Hin)
    as (d & _ & Hsel & Hdr).
  destruct Hsel as (_ & _ & _ & Hc & _). simpl in Hc.
  rewrite <- (pop_id_lookup d r "completed" Hdr) in Hc by done.
  rewrite (pop_id_lookup _ r "completed" Hr) in Hc by done.
  discriminate Hc.
Qed.

(** *** The update model *)

Lemma dict_exclude_unset_lookup m k :
  dict_exclude_unset m !! k
  = if decide (k ∈ fields_set m) then values m !! k else None.
Proof.
  unfold dict_exclude_unset. destruct (decide (k ∈ fields_set m)) as [Hk|Hk].
  - destruct (values m !! k) as [v|] eqn:Ev.
    + by apply map_lookup_filter_Some.
    + apply map_lookup_filter_None. left. done.
  - apply map_lookup_filter_None. right. intros v _. done.
Qed.

Lemma exclude_unset_optional {A} (inj : A -> Value) dflt k (f : field A) m k' :
  k ∉ fields_set m ->
  dict_exclude_unset (optional inj dflt k f m) !! k'
  = if decide (k' = k) then supplied inj f None
    else dict_exclude_unset m !! k'.
Proof.
  intros Hk. rewrite !dict_exclude_unset_lookup.
  destruct (decide (k' = k)) as [->|Hne].
  - destruct f; simpl.
    + by rewrite decide_False.
    + rewrite decide_True by set_solver. by rewrite lookup_insert_eq.
    + rewrite decide_True by set_solver. by rewrite lookup_insert_eq.
  - destruct f; simpl; rewrite lookup_insert_ne by done.
    + done.
    + destruct (decide (k' ∈ fields_set m)).
      * rewrite decide_True; [done|]. apply elem_of_union. by right.
      * rewrite decide_False; [done|].
        intros [?%elem_of_singleton|?]%elem_of_union; done.
    + destruct (decide (k' ∈ fields_set m)).
      * rewrite decide_True; [done|]. apply elem_of_union. by right.
      * rewrite decide_False; [done|].
        intros [?%elem_of_singleton|?]%elem_of_union; done.
Qed.

Lemma fields_set_optional {A} (inj : A -> Value) dflt k (f : field A) m k' :
  k' ∈ fields_set (optional inj dflt k f m) -> k' = k \/ k' ∈ fields_set m.
Proof. destruct f; simpl; set_solver. Qed.

(** The fields a validated update carries are those of its body. *)
Lemma TaskUpdate_lookup body m k :
  TaskUpdate body = Some m ->
  dict_exclude_unset m !! k =
  if decide (k = "completed") then supplied VBool (j_completed body) None
  else if decide (k = "due_date") then supplied VDate (j_due_date body) None
  else if decide (k = "priority") then supplied VStr (j_priority body) None
  else if decide (k = "category") then supplied VStr (j_category body) None
  else if decide (k = "description") then
    supplied VStr (j_description body) None
  else if decide (k = "title") then supplied VStr (j_title body) None
  else None.
Proof.
  unfold TaskUpdate, TaskBase. destruct (j_title body) as [| |title]; [done..|].
  simpl. intros [= <-].
  rewrite !exclude_unset_optional.
  - repeat case_decide; try done.
    + subst. rewrite dict_exclude_unset_lookup. simpl.
      rewrite decide_True by set_solver. by rewrite lookup_singleton_eq.
    + rewrite dict_exclude_unset_lookup. simpl.
      rewrite decide_False by set_solver. done.
  - simpl. set_solver.
  - intros Hin. apply fields_set_optional in Hin as [?|Hin]; [done|].
    simpl in Hin. set_solver.
  - intros Hin. apply fields_set_optional in Hin as [?|Hin]; [done|].
    apply fields_set_optional in Hin as [?|Hin]; [done|].
    simpl in Hin. set_solver.
  - intros Hin. apply fields_set_optional in Hin as [?|Hin]; [done|].
    apply fields_set_optional in Hin as [?|Hin]; [done|].
    apply fields_set_optional in Hin as [?|Hin]; [done|].
    simpl in Hin. set_solver.
  - intros Hin. apply fields_set_optional in Hin as [?|Hin]; [done|].
    apply fields_set_optional in Hin as [?|Hin]; [done|].
    apply fields_set_optional in Hin as [?|Hin]; [done|].
    apply fields_set_optional in Hin as [?|Hin]; [done|].
    simpl in Hin. set_solver.
Qed.

Lemma supplied_union {A} (inj : A -> Value) (f : field A) (old : option Value) :
  supplied inj f None ∪ old = supplied inj f old.
Proof. destruct f, old; done. Qed.

(** The fields of an updated task, one by one. *)
Lemma updated_lookup body m now (t : Doc) k :
  TaskUpdate body = Some m ->
  updated m now t !! k =
  if decide (k = "updated_at") then Some (VDate now)
  else if decide (k = "completed") then
    supplied VBool (j_completed body) (t !! k)
  else if decide (k = "due_date") then
    supplied VDate (j_due_date body) (t !! k)
  else if decide (k = "priority") then
    supplied VStr (j_priority body) (t !! k)
  else if decide (k = "category") then
    supplied VStr (j_category body) (t !! k)
  else if decide (k = "description") then
    supplied VStr (j_description body) (t !! k)
  else if decide (k = "title") then supplied VStr (j_title body) (t !! k)
  else t !! k.
Proof.
  intros Hm. unfold updated. rewrite lookup_union.
  destruct (decide (k = "updated_at")) as [->|Hne].
  - rewrite lookup_insert_eq. by destruct (t !! "updated_at").
  - rewrite lookup_insert_ne by done. rewrite (TaskUpdate_lookup body m k Hm).
    repeat case_decide; rewrite ?supplied_union; try done.
    by destruct (t !! k).
Qed.

(** *** Updating an owned task *)

Lemma unique_prefix_unmatched (l1 : list Doc) (t : Doc) l2 o :
  NoDup (Mongo.key_of "_id" <$> (l1 ++ t :: l2)%list) ->
  t !! "_id" = Some (VOid o) ->
  Forall (fun d => Mongo.matches (Mongo.Fields {[ "_id" := VOid o ]}) d = false)
    l1.
Proof.
  intros Hnd Ht. apply Forall_forall. intros d Hd.
  apply not_true_is_false. rewrite matches_singleton by done. intros Hdo.
  rewrite fmap_app, fmap_cons in Hnd. apply NoDup_app in Hnd as (_ & Hdis & _).
  apply (Hdis (Mongo.key_of "_id" d)).
  - apply list_elem_of_fmap. by exists d.
  - replace (Mongo.key_of "_id" d) with (Mongo.key_of "_id" t); [left|].
    unfold Mongo.key_of. by rewrite Hdo, Ht.
Qed.

Lemma updated_id body m now (t : Doc) :
  TaskUpdate body = Some m -> updated m now t !! "_id" = t !! "_id".
Proof. intros Hm. by rewrite (updated_lookup body m now t "_id" Hm). Qed.

Lemma update_owned task_id body m (cu : Doc) uid now w l1 (t : Doc) l2 o :
  wf w ->
  tasks w = (l1 ++ t :: l2)%list ->
  t !! "_id" = Some (VOid o) ->
  t !! "user_id" = Some (VStr (py_str uid)) ->
  cu !! "_id" = Some uid ->
  ObjectId_of_str task_id = Some o ->
  TaskUpdate body = Some m ->
  update_task task_id m cu now w =
  (pop_id (updated m now t),
   {| users := users w;
      tasks := (l1 ++ updated m now t :: l2)%list;
      next_oid := next_oid w |}).
Proof.
  intros Hwf Hts Hid Hown Hcu Hparse Hm.
  pose proof (wf_tasks_unique w Hwf) as Hnd. rewrite Hts in Hnd.
  pose proof (unique_prefix_unmatched l1 t l2 o Hnd Hid) as Hpre.
  rewrite update_task_eq, Hparse, Hcu, Hts.
  rewrite (find_one_first _ l1 t l2).
  - rewrite (truthy_Some t _ _ Hid). cbv zeta. cbn [tasks].
    rewrite (update_one_first _ _ l1 t l2 Hpre)
      by (by apply matches_singleton).
    fold (updated m now t).
    rewrite (find_one_first _ l1 (updated m now t) l2 Hpre).
    + simpl. unfold pop_id.
      rewrite (updated_id body m now t Hm), Hid. done.
    + apply matches_singleton; [done|].
      by rewrite (updated_id body m now t Hm).
  - eapply Forall_impl; [exact Hpre|]. intros d Hd.
    apply not_true_is_false. rewrite matches_id_owner. intros [Hdo _].
    apply not_true_iff_false in Hd. apply Hd. by apply matches_singleton.
  - by apply matches_id_owner.
Qed.

(** *** The [Task] response model on typed documents *)

Lemma required_eq ty k (d out : Doc) v :
  d !! k = Some v -> ty v = true -> required ty k d out = Some (<[k := v]> out).
Proof. unfold required. by intros -> ->. Qed.

Lemma defaulted_eq ty dflt k (d out : Doc) :
  (forall v, d !! k = Some v -> ty v = true) ->
  defaulted ty dflt k d out = Some (<[k := default dflt (d !! k)]> out).
Proof.
  unfold defaulted. intros Hty. destruct (d !! k) as [v|]; [|done].
  by rewrite (Hty v eq_refl).
Qed.

Lemma Task_accepts (d : Doc) i :
  task_typed d ->
  d !! "id" = Some (VStr i) ->
  (forall v, d !! "completed" = Some v -> v <> VNone) ->
  exists reply,
    Task d = Some reply /\
    reply !! "updated_at" = Some (default VNone (d !! "updated_at")).
Proof.
  intros [(s & Htitle) (u & Huser) (c & Hcreated) Hdesc Hcat Hprio Hdue Hcomp
            Hupd] Hid Hnonnull.
  eexists. unfold Task.
  rewrite (required_eq _ _ _ _ _ Htitle eq_refl). simpl.
  rewrite (defaulted_eq _ _ "description" _ _ Hdesc). simpl.
  rewrite (defaulted_eq _ _ "category" _ _ Hcat). simpl.
  rewrite (defaulted_eq _ _ "priority" _ _ Hprio). simpl.
  rewrite (defaulted_eq _ _ "due_date" _ _ Hdue). simpl.
  rewrite (required_eq _ _ _ _ _ Hid eq_refl). simpl.
  rewrite (required_eq _ _ _ _ _ Huser eq_refl). simpl.
  rewrite (defaulted_eq is_bool _ "completed").
  2:{ intros v Hv. specialize (Hcomp v Hv). specialize (Hnonnull v Hv).
      by destruct v. }
  simpl. rewrite (required_eq _ _ _ _ _ Hcreated eq_refl). simpl.
  rewrite (defaulted_eq _ _ "updated_at" _ _ Hupd).
  split; [reflexivity|]. by rewrite lookup_insert_eq.
Qed.


Lemma supplied_typed {A} (inj : A -> Value) (f : field A) old ty v :
  (forall a, ty (inj a) = true) ->
  (forall v', old = Some v' -> opt ty v' = true) ->
  supplied inj f old = Some v -> opt ty v = true.
Proof.
  intros Hinj Hold. destruct f as [| |a]; simpl.
  - apply Hold.
  - intros [= <-]. unfold opt. apply orb_true_r.
  - intros [= <-]. unfold opt. by rewrite Hinj.
Qed.

Lemma updated_typed body m now (t : Doc) :
  TaskUpdate body = Some m -> task_typed t -> task_typed (updated m now t).
Proof.
  intros Hm [(s & Htitle) Huser Hcreated Hdesc Hcat Hprio Hdue Hcomp Hupd].
  assert (exists title, j_title body = Given title) as [title Hjt].
  { unfold TaskUpdate, TaskBase in Hm.
    destruct (j_title body) as [| |title]; [done..|]. by exists title. }
  split.
  - rewrite (updated_lookup body m now t "title" Hm). simpl.
    rewrite Hjt. by exists title.
  - by rewrite (updated_lookup body m now t "user_id" Hm).
  - by rewrite (updated_lookup body m now t "created_at" Hm).
  - intros v. rewrite (updated_lookup body m now t _ Hm). simpl.
    by apply supplied_typed.
  - intros v. rewrite (updated_lookup body m now t _ Hm). simpl.
    by apply supplied_typed.
  - intros v. rewrite (updated_lookup body m now t _ Hm). simpl.
    by apply supplied_typed.
  - intros v. rewrite (updated_lookup body m now t _ Hm). simpl.
    by apply supplied_typed.
  - intros v. rewrite (updated_lookup body m now t _ Hm). simpl.
    by apply supplied_typed.
  - intros v. rewrite (updated_lookup body m now t _ Hm). simpl.
    by intros [= <-].
Qed.

Lemma rendered_typed (d r : Doc) :
  pop_id d = Return r -> task_typed d -> task_typed r.
Proof.
  intros Hr [Htitle Huser Hcreated Hdesc Hcat Hprio Hdue Hcomp Hupd].
  split; rewrite (pop_id_lookup d r _ Hr) by done; done.
Qed.



(** *** The store stays well formed *)

Lemma values_optional {A} (inj : A -> Value) dflt k (f : field A) m k' :
  values (optional inj dflt k f m) !! k'
  = if decide (k' = k) then Some (field_value inj dflt f) else values m !! k'.
Proof.
  destruct (decide (k' = k)) as [->|Hne]; destruct f; simpl;
    by rewrite ?lookup_insert_eq, ?lookup_insert_ne.
Qed.

Lemma TaskCreate_lookup body m k :
  TaskCreate body = Some m ->
  dict m !! k =
  if decide (k = "due_date") then
    Some (field_value VDate VNone (j_due_date body))
  else if decide (k = "priority") then
    Some (field_value VStr (VStr "medium") (j_priority body))
  else if decide (k = "category") then
    Some (field_value VStr VNone (j_category body))
  else if decide (k = "description") then
    Some (field_value VStr VNone (j_description body))
  else if decide (k = "title") then supplied VStr (j_title body) None
  else None.
Proof.
  unfold TaskCreate, TaskBase, dict.
  destruct (j_title body) as [| |title]; [done..|]. intros [= <-].
  rewrite !values_optional. simpl. repeat case_decide; subst; try done.
  by rewrite lookup_singleton_ne.
Qed.

Lemma field_value_typed {A} (inj : A -> Value) dflt (f : field A) ty :
  (forall a, ty (inj a) = true) -> opt ty dflt = true ->
  opt ty (field_value inj dflt f) = true.
Proof.
  intros Hinj Hd. destruct f as [| |a]; simpl; [done | apply orb_true_r |].
  unfold opt. by rewrite Hinj.
Qed.

Lemma task_dict_typed body m oid uid now :
  TaskCreate body = Some m -> task_typed (task_dict oid uid m now).
Proof.
  intros Hm.
  assert (exists title, j_title body = Given title) as [title Hjt].
  { unfold TaskCreate, TaskBase in Hm.
    destruct (j_title body) as [| |title]; [done..|]. by exists title. }
  unfold task_dict.
  split; rewrite ?lookup_insert_eq;
    repeat (rewrite lookup_insert_ne by done); rewrite ?lookup_insert_eq;
    rewrite ?(TaskCreate_lookup body m _ Hm); simpl; rewrite ?Hjt; eauto;
    try (intros v [= <-]; by apply field_value_typed); done.
Qed.

Lemma has_oid_below_mono n n' (d : Doc) :
  (n <= n')%N -> has_oid_below n d -> has_oid_below n' d.
Proof. intros Hle (o & Ho & Hlt). exists o. split; [done | lia]. Qed.

Lemma wf_bump w :
  wf w ->
  wf {| users := users w; tasks := tasks w; next_oid := N.succ (next_oid w) |}.
Proof.
  intros [Hu Ht Hnd Hty]. split; simpl; [| |done..].
  - eapply Forall_impl; [exact Hu|]. intros d. apply has_oid_below_mono. lia.
  - eapply Forall_impl; [exact Ht|]. intros d. apply has_oid_below_mono. lia.
Qed.

Lemma wf_initial n : wf {| users := []; tasks := []; next_oid := n |}.
Proof. split; simpl; constructor. Qed.

Lemma wf_register user now salt w :
  wf w -> wf (snd (api_auth_register user now salt w)).
Proof.
  intros Hwf. unfold api_auth_register, route. rewrite register_user_eq.
  unfold server_fault. destruct (truthy _); [done|]. cbv zeta.
  unfold Mongo.insert_one. destruct (Mongo.violates _ _ _); simpl.
  - by apply wf_bump.
  - destruct (wf_bump w Hwf) as [Hu Ht Hnd Hty]. simpl in *.
    split; simpl; [|done..].
    apply Forall_app. split; [done|]. constructor; [|done].
    exists (next_oid w). unfold user_dict. split; [by simplify_map_eq | lia].
Qed.

Lemma wf_login credentials w : snd (api_auth_login credentials w) = w.
Proof.
  unfold api_auth_login, route. rewrite login_eq. cbv zeta. unfold server_fault.
  destruct (truthy _); [|done].
  destruct (getitem_opt _ "hashed_password"); [|done].
  destruct (verify_password _ _) as [[]|]; [|done..].
  by destruct (getitem_opt _ "email").
Qed.

Lemma wf_get cu page limit category priority completed due_date w :
  snd (api_tasks_get cu page limit category priority completed due_date w) = w.
Proof.
  unfold api_tasks_get, route.
  pose proof (get_tasks_snd cu page limit category priority completed due_date
                w) as Hs.
  by destruct (get_tasks _ _ _ _ _ _ _ _).
Qed.

Lemma wf_post body cu now w :
  wf w -> wf (snd (api_tasks_post body cu now w)).
Proof.
  intros Hwf. unfold api_tasks_post.
  destruct (TaskCreate body) as [m|] eqn:Hm; [|done].
  unfold route. rewrite create_task_eq. unfold server_fault.
  destruct (cu !! "_id") as [uid|]; [|done]. cbv zeta.
  unfold Mongo.insert_one.
  destruct (Mongo.violates _ _ _) eqn:Ev; simpl; [by apply wf_bump|].
  assert (wf {| users := users w;
                tasks := (tasks w ++ [task_dict (next_oid w) uid m now])%list;
                next_oid := N.succ (next_oid w) |}) as Hwf'.
  { destruct (wf_bump w Hwf) as [Hu Ht Hnd Hty]. simpl in *.
    split; simpl; [done| | |].
    - apply Forall_app. split; [done|]. constructor; [|done].
      exists (next_oid w). unfold task_dict.
      split; [by rewrite lookup_insert_eq | lia].
    - rewrite fmap_app. apply NoDup_app. split; [done|]. split.
      + intros v Hv [Heq|Hin]%elem_of_cons; [|by inversion Hin].
        apply list_elem_of_fmap in Hv as (d & -> & Hd).
        pose proof (wf_tasks_oid w Hwf) as Hall. rewrite Forall_forall in Hall.
        destruct (Hall d Hd) as (o & Ho & Hlt).
        unfold Mongo.key_of, task_dict in Heq.
        rewrite Ho, lookup_insert_eq in Heq. simpl in Heq.
        injection Heq as ->. lia.
      + apply NoDup_singleton.
    - apply Forall_app. split; [done|]. constructor; [|done].
      by eapply task_dict_typed. }
  by destruct (pop_id_opt _).
Qed.

Lemma update_one_Forall (P : Doc -> Prop) q upd coll :
  (forall d, P d -> P (upd ∪ d)) ->
  Forall P coll -> Forall P (Mongo.update_one q upd coll).
Proof.
  intros Hupd. induction 1 as [|d coll Hd Hall IH]; simpl; [done|].
  destruct (Mongo.matches q d); constructor; auto.
Qed.

Lemma update_one_keys q upd coll :
  upd !! "_id" = None ->
  Mongo.key_of "_id" <$> Mongo.update_one q upd coll
  = Mongo.key_of "_id" <$> coll.
Proof.
  intros Hupd. induction coll as [|d coll IH]; [done|].
  cbn [Mongo.update_one]. destruct (Mongo.matches q d); rewrite !fmap_cons.
  - f_equal. unfold Mongo.key_of. by rewrite lookup_union_r.
  - by rewrite IH.
Qed.

Lemma delete_one_sublist q coll : Mongo.delete_one q coll `sublist_of` coll.
Proof.
  induction coll as [|d coll IH]; simpl; [done|].
  destruct (Mongo.matches q d); [by apply sublist_cons | by apply sublist_skip].
Qed.

Lemma wf_put task_id body cu now w :
  wf w -> wf (snd (api_tasks_put task_id body cu now w)).
Proof.
  intros Hwf. unfold api_tasks_put.
  destruct (TaskUpdate body) as [m|] eqn:Hm; [|done].
  unfold route. rewrite update_task_eq. unfold server_fault.
  destruct (ObjectId_of_str task_id) as [o|]; [|done].
  destruct (cu !! "_id") as [uid|]; [|done].
  destruct (truthy _); [|done]. cbv zeta.
  assert (wf {| users := users w;
                tasks := Mongo.update_one (Mongo.Fields {[ "_id" := VOid o ]})
                           (<["updated_at" := VDate now]> (dict_exclude_unset m))
                           (tasks w);
                next_oid := next_oid w |}) as Hwf'.
  { destruct Hwf as [Hu Ht Hnd Hty]. split; simpl; [done| | |].
    - apply update_one_Forall; [|done]. intros d (o' & Ho' & Hlt).
      exists o'. split; [|done].
      change (updated m now d !! "_id" = Some (VOid o')).
      by rewrite (updated_id body m now d Hm).
    - rewrite update_one_keys; [done|]. rewrite lookup_insert_ne by done.
      by rewrite (TaskUpdate_lookup body m "_id" Hm).
    - apply update_one_Forall; [|done]. intros d Hd.
      by apply (updated_typed body m now d Hm). }
  by destruct (pop_id_opt _).
Qed.

Lemma wf_delete task_id cu w :
  wf w -> wf (snd (api_tasks_delete task_id cu w)).
Proof.
  intros Hwf. unfold api_tasks_delete, route. rewrite delete_task_eq.
  unfold server_fault.
  destruct (ObjectId_of_str task_id) as [o|]; [|done].
  destruct (cu !! "_id") as [uid|]; [|done].
  destruct (truthy _); [|done]. simpl.
  pose proof (delete_one_sublist (Mongo.Fields {[ "_id" := VOid o ]}) (tasks w))
    as Hsub.
  destruct Hwf as [Hu Ht Hnd Hty]. split; simpl; [done| | |].
  - rewrite Forall_forall in Ht |- *. intros d Hd.
    by apply Ht, (sublist_subseteq _ _ Hsub).
  - eapply sublist_NoDup; [exact Hnd|]. by apply fmap_sublist.
  - rewrite Forall_forall in Hty |- *. intros d Hd.
    by apply Hty, (sublist_subseteq _ _ Hsub).
Qed.

(** X15. The [due_date] parameter of [get_tasks] is a string, the stored
    [due_date] a [datetime] or [None]: on a well-formed store a listing
    with a non-empty [due_date] filter answers with no task and total 0,
    whatever the other filters. *)
Lemma due_date_filter_selects_nothing w (cu : Doc) uid page limit category
    priority completed s :
  wf w ->
  cu !! "_id" = Some uid ->
  s <> EmptyString ->
  (0 <= (page - 1) * limit)%Z ->
  get_tasks cu page limit category priority completed (Some s) w
  = (Return {| Listing.tasks := []; Listing.total := 0;
               Listing.page := page; Listing.limit := limit |}, w).
Proof.
  intros Hwf Hcu Hs Hskip. rewrite get_tasks_eq, Hcu. cbv zeta.
  assert (Hnone :
    Mongo.find
      (Mongo.Fields (tasks_query uid category priority completed (Some s)))
      (tasks w) = []).
  { unfold Mongo.find.
    pose proof (wf_tasks_typed w Hwf) as Hty.
    induction Hty as [|d coll Hd _ IH]; [done|]. cbn [List.filter].
    destruct (Mongo.matches
                (Mongo.Fields
                   (tasks_query uid category priority completed (Some s))) d)
      eqn:Em; [|exact IH].
    apply tasks_query_matches in Em as (_ & _ & _ & _ & [?|Hdue]); [done|].
    apply (typed_due_date d Hd) in Hdue. discriminate Hdue. }
  unfold Mongo.count_documents. rewrite Hnone.
  unfold Mongo.skip_limit.
  replace ((page - 1) * limit <? 0)%Z with false
    by (symmetry; apply Z.ltb_ge; lia).
  rewrite drop_nil. destruct (limit =? 0)%Z; by rewrite ?take_nil.
Qed.

(** Every store reached from an empty one by requests is well formed. *)
Lemma wf_handle r w : wf w -> wf (handle r w).
Proof.
  intros Hwf. destruct r; simpl.
  - by apply wf_register.
  - by rewrite wf_login.
  - by apply wf_post.
  - by apply wf_put.
  - by apply wf_delete.
  - by rewrite wf_get.
Qed.

Lemma wf_run rs w : wf w -> wf (run rs w).
Proof.
  unfold run. revert w. induction rs as [|r rs IH]; intros w Hwf; simpl.
  - done.
  - by apply IH, wf_handle.
Qed.

(** *** Deleting an owned task *)

Lemma delete_owned task_id (cu : Doc) uid w l1 (t : Doc) l2 o :
  wf w ->
  tasks w = (l1 ++ t :: l2)%list ->
  t !! "_id" = Some (VOid o) ->
  t !! "user_id" = Some (VStr (py_str uid)) ->
  cu !! "_id" = Some uid ->
  ObjectId_of_str task_id = Some o ->
  api_tasks_delete task_id cu w
  = (Ok {[ "message" := VStr "Task deleted successfully" ]},
     {| users := users w; tasks := (l1 ++ l2)%list; next_oid := next_oid w |}).
Proof.
  intros Hwf Hts Hid Hown Hcu Hparse.
  pose proof (wf_tasks_unique w Hwf) as Hnd. rewrite Hts in Hnd.
  pose proof (unique_prefix_unmatched l1 t l2 o Hnd Hid) as Hpre.
  unfold api_tasks_delete, route. rewrite delete_task_eq, Hparse, Hcu, Hts.
  rewrite (find_one_first _ l1 t l2).
  - rewrite (truthy_Some t _ _ Hid).
    rewrite (delete_one_first _ l1 t l2 Hpre) by (by apply matches_singleton).
    done.
  - eapply Forall_impl; [exact Hpre|]. intros d Hd.
    apply not_true_is_false. rewrite matches_id_owner. intros [Hdo _].
    apply not_true_iff_false in Hd. apply Hd. by apply matches_singleton.
  - by apply matches_id_owner.
Qed.

(** *** What no reply is *)

Lemma route_try_except_status {A B} (response_model : A -> option B)
    (body : M A) w :
  status (fst (route response_model (try_except body) w)) = 200 \/
  status (fst (route response_model (try_except body) w)) = 500.
Proof.
  unfold route, try_except. destruct (body w) as [[a|e] w']; simpl.
  - destruct (response_model a); simpl; tauto.
  - tauto.
Qed.

(** X1. Whatever the request and the store, the reply has status 200, 422
    or 500: the 400, 401 and 404 the handlers raise never reach the caller,
    and 422 comes only from a refused body of the two task routes. *)
Theorem replies_are_200_422_or_500 r w :
  reply_status r w = 200 \/ reply_status r w = 422 \/ reply_status r w = 500.
Proof.
  destruct r as [user now salt|credentials|body cu now|task_id body cu now
                |task_id cu|cu page limit category priority completed due_date];
    simpl.
  - unfold api_auth_register, register_user.
    match goal with
    | |- context [route User (try_except ?b) w] =>
        destruct (route_try_except_status User b w); tauto
    end.
  - unfold api_auth_login, login.
    match goal with
    | |- context [route Token (try_except ?b) w] =>
        destruct (route_try_except_status Token b w); tauto
    end.
  - unfold api_tasks_post. destruct (TaskCreate body) as [m|]; [|simpl; tauto].
    unfold create_task.
    match goal with
    | |- context [route Task (try_except ?b) w] =>
        destruct (route_try_except_status Task b w); tauto
    end.
  - unfold api_tasks_put. destruct (TaskUpdate body) as [m|]; [|simpl; tauto].
    unfold update_task.
    match goal with
    | |- context [route Task (try_except ?b) w] =>
        destruct (route_try_except_status Task b w); tauto
    end.
  - unfold api_tasks_delete, delete_task.
    match goal with
    | |- context [route Some (try_except ?b) w] =>
        destruct (route_try_except_status Some b w); tauto
    end.
  - unfold api_tasks_get, get_tasks.
    match goal with
    | |- context [route Some (try_except ?b) w] =>
        destruct (route_try_except_status Some b w); tauto
    end.
Qed.

(** *** Invariants of reachable stores *)

(** X2. Every store reached from an empty one by any sequence of requests
    is well formed: the identifiers of users and tasks were handed out by
    [ObjectId()] earlier, no two tasks share one, and every task has the
    fields of its model with values of their types. *)
Theorem reachable_stores_are_well_formed rs n : wf (run rs (empty_store n)).
Proof. apply wf_run, wf_initial. Qed.

Lemma update_one_identity q upd coll :
  upd !! "_id" = None -> upd !! "user_id" = None ->
  upd !! "created_at" = None ->
  identity <$> Mongo.update_one q upd coll = identity <$> coll.
Proof.
  intros Hid Hown Hcreated. induction coll as [|d coll IH]; [done|].
  cbn [Mongo.update_one]. destruct (Mongo.matches q d); rewrite !fmap_cons.
  - f_equal. unfold identity. by rewrite !lookup_union_r.
  - by rewrite IH.
Qed.

(** X3. An update, whoever sends it and whatever its body, leaves the users
    as they are and keeps the [_id], the owner and the creation time of
    every task, in the same order: it neither adds, removes nor reassigns a
    task. *)
Theorem update_keeps_identity task_id body cu now w :
  users (snd (api_tasks_put task_id body cu now w)) = users w /\
  identity <$> tasks (snd (api_tasks_put task_id body cu now w))
  = identity <$> tasks w.
Proof.
  unfold api_tasks_put.
  destruct (TaskUpdate body) as [m|] eqn:Hm; [|done].
  unfold route. rewrite update_task_eq. unfold server_fault.
  destruct (ObjectId_of_str task_id) as [o|]; [|done].
  destruct (cu !! "_id") as [uid|]; [|done].
  destruct (truthy _); [|done]. cbv zeta.
  assert (Hkeep : forall k,
            k <> "updated_at" ->
            dict_exclude_unset m !! k = None ->
            (<["updated_at" := VDate now]> (dict_exclude_unset m)) !! k = None).
  { intros k Hk Hnone. by rewrite lookup_insert_ne. }
  destruct (pop_id_opt _); simpl; (split; [done|]);
    apply update_one_identity; apply Hkeep; try done;
    by rewrite (TaskUpdate_lookup body m _ Hm).
Qed.

Lemma violates_false_inv unique (d : Doc) coll k d' :
  Mongo.violates unique d coll = false ->
  k ∈ unique -> d' ∈ coll -> Mongo.key_of k d' <> Mongo.key_of k d.
Proof.
  unfold Mongo.violates. intros Hv Hk Hd' Heq.
  apply not_true_iff_false in Hv. apply Hv.
  apply existsb_exists. exists k. split; [by apply list_elem_of_In|].
  apply existsb_exists. exists d'. split; [by apply list_elem_of_In|].
  by apply bool_decide_eq_true.
Qed.

Lemma user_dict_typed oid user now salt :
  user_typed (user_dict oid user now salt).
Proof. split; eexists; unfold user_dict; by simplify_map_eq. Qed.

Lemma users_ok_register user now salt w :
  users_ok w -> users_ok (snd (api_auth_register user now salt w)).
Proof.
  intros [Hnd Hty]. unfold api_auth_register, route. rewrite register_user_eq.
  unfold server_fault. destruct (truthy _); [done|]. cbv zeta.
  unfold Mongo.insert_one. destruct (Mongo.violates _ _ _) eqn:Ev; simpl.
  - done.
  - split; simpl.
    + rewrite fmap_app. apply NoDup_app. split; [done|]. split.
      * intros v Hv [Heq|Hin]%elem_of_cons; [|by inversion Hin].
        apply list_elem_of_fmap in Hv as (d' & -> & Hd').
        eapply (violates_false_inv _ _ _ "email" d' Ev); [|done..].
        right. left.
      * apply NoDup_singleton.
    + apply Forall_app. split; [done|]. constructor; [|done].
      apply user_dict_typed.
Qed.

Lemma users_post body cu now w :
  users (snd (api_tasks_post body cu now w)) = users w.
Proof.
  unfold api_tasks_post. destruct (TaskCreate body) as [m|]; [|done].
  unfold route. rewrite create_task_eq. unfold server_fault.
  destruct (cu !! "_id"); [|done]. cbv zeta.
  destruct (Mongo.insert_one _ _ _); [|done]. by destruct (pop_id_opt _).
Qed.

Lemma users_delete task_id cu w :
  users (snd (api_tasks_delete task_id cu w)) = users w.
Proof.
  unfold api_tasks_delete, route. rewrite delete_task_eq. unfold server_fault.
  destruct (ObjectId_of_str task_id); [|done].
  destruct (cu !! "_id"); [|done]. by destruct (truthy _).
Qed.

Lemma users_put task_id body cu now w :
  users (snd (api_tasks_put task_id body cu now w)) = users w.
Proof.
  unfold api_tasks_put. destruct (TaskUpdate body) as [m|]; [|done].
  unfold route. rewrite update_task_eq. unfold server_fault.
  destruct (ObjectId_of_str task_id); [|done].
  destruct (cu !! "_id"); [|done]. destruct (truthy _); [|done].
  cbv zeta. by destruct (pop_id_opt _).
Qed.

Lemma users_ok_same w w' : users w' = users w -> users_ok w -> users_ok w'.
Proof. intros Heq [Hnd Hty]. split; by rewrite Heq. Qed.

Lemma users_ok_handle r w : users_ok w -> users_ok (handle r w).
Proof.
  intros Hok. destruct r; simpl.
  - by apply users_ok_register.
  - by rewrite wf_login.
  - eapply users_ok_same; [apply users_post | done].
  - eapply users_ok_same; [apply users_put | done].
  - eapply users_ok_same; [apply users_delete | done].
  - by rewrite wf_get.
Qed.

Lemma users_ok_run rs w : users_ok w -> users_ok (run rs w).
Proof.
  unfold run. revert w. induction rs as [|r rs IH]; intros w Hok; simpl.
  - done.
  - by apply IH, users_ok_handle.
Qed.

Lemma users_ok_empty n : users_ok (empty_store n).
Proof. split; simpl; constructor. Qed.

(** X4. In every store reached from an empty one by any sequence of
    requests no two users have the same email, and every user document
    carries its email, username and hashed password as strings. *)
Theorem emails_stay_unique rs n : users_ok (run rs (empty_store n)).
Proof. apply users_ok_run, users_ok_empty. Qed.

Lemma unique_rest_unmatched (l1 : list Doc) (t : Doc) l2 o (d : Doc) :
  NoDup (Mongo.key_of "_id" <$> (l1 ++ t :: l2)%list) ->
  t !! "_id" = Some (VOid o) ->
  d ∈ (l1 ++ l2)%list -> d !! "_id" <> Some (VOid o).
Proof.
  rewrite fmap_app, fmap_cons. intros Hnd Ht Hd Hdo.
  assert (Hk : Mongo.key_of "_id" d = Mongo.key_of "_id" t).
  { unfold Mongo.key_of. by rewrite Hdo, Ht. }
  apply NoDup_app in Hnd as (_ & Hdis & Hnd2). apply NoDup_cons in Hnd2 as [Hnot _].
  apply elem_of_app in Hd as [Hd|Hd].
  - apply (Hdis (Mongo.key_of "_id" d)).
    + apply list_elem_of_fmap. by exists d.
    + rewrite Hk. left.
  - apply Hnot. rewrite <- Hk. apply list_elem_of_fmap. by exists d.
Qed.

(** X5. Deleting an owned task answers 200 with the message and removes
    exactly that task, every other task and every user staying as they are.
    Deleting it again is answered with 500 (the 404 the handler raises is
    caught) and changes nothing. *)
Theorem delete_removes_the_task_once task_id (cu : Doc) uid w l1 (t : Doc) l2 o :
  wf w ->
  tasks w = (l1 ++ t :: l2)%list ->
  t !! "_id" = Some (VOid o) ->
  t !! "user_id" = Some (VStr (py_str uid)) ->
  cu !! "_id" = Some uid ->
  ObjectId_of_str task_id = Some o ->
  let w' := {| users := users w; tasks := (l1 ++ l2)%list;
               next_oid := next_oid w |} in
  api_tasks_delete task_id cu w
  = (Ok {[ "message" := VStr "Task deleted successfully" ]}, w') /\
  api_tasks_delete task_id cu w' = (Error 500 (exn_str not_found), w').
Proof.
  intros Hwf Hts Hid Hown Hcu Hparse w'. split.
  - by apply (delete_owned task_id cu uid w l1 t l2 o).
  - unfold api_tasks_delete, route.
    rewrite (delete_unowned task_id cu uid w' Hcu), Hparse; [done|].
    intros o' d Ho' Hd Hdo _. assert (o' = o) as -> by congruence.
    pose proof (wf_tasks_unique w Hwf) as Hnd. rewrite Hts in Hnd.
    by apply (unique_rest_unmatched l1 t l2 o d Hnd Hid).
Qed.

(** *** The [Task] response model, field by field *)

Lemma required_inv ty k (d out out' : Doc) :
  required ty k d out = Some out' ->
  exists v, d !! k = Some v /\ ty v = true /\ out' = <[k := v]> out.
Proof.
  unfold required. destruct (d !! k) as [v|]; [|done].
  destruct (ty v) eqn:Ety; [|done]. intros [= <-]. by exists v.
Qed.

Lemma defaulted_inv ty dflt k (d out out' : Doc) :
  defaulted ty dflt k d out = Some out' ->
  out' = <[k := default dflt (d !! k)]> out /\
  (forall v, d !! k = Some v -> ty v = true).
Proof.
  unfold defaulted. destruct (d !! k) as [v|].
  - destruct (ty v) eqn:Ety; [|done]. intros [= <-]. split; [done|].
    by intros v' [= <-].
  - intros [= <-]. by split.
Qed.

Lemma Task_inv (d reply : Doc) :
  Task d = Some reply ->
  dom reply = Task_fields /\
  forall k, k ∈ Task_fields ->
            reply !! k = Some (default (Task_default k) (d !! k)).
Proof.
  unfold Task. intros Hreply.
  repeat first
    [ apply bind_Some in Hreply as (? & Hstep & Hreply)
    | match goal with
      | Hs : required _ _ _ _ = Some _ |- _ =>
          apply required_inv in Hs as (? & ? & _ & ->)
      | Hs : defaulted _ _ _ _ _ = Some _ |- _ =>
          apply defaulted_inv in Hs as [-> _]
      end ].
  split.
  - rewrite !dom_insert_L, dom_empty_L. unfold Task_fields. set_solver.
  - intros k Hk. unfold Task_fields in Hk.
    repeat (apply elem_of_union in Hk as [Hk|Hk]);
      apply elem_of_singleton in Hk as ->; unfold Task_default; simpl;
      simplify_map_eq; done.
Qed.

(** X6. A reply that passes the [Task] response model has exactly the ten
    fields of the model, each with the value of the returned document or,
    where the document lacks it, the model's default: [priority] medium,
    [completed] false, [None] otherwise. In particular it never carries
    [_id] or any other stored field. *)
Theorem Task_reply_fields (d reply : Doc) :
  Task d = Some reply ->
  dom reply = Task_fields /\
  forall k, k ∈ Task_fields ->
            reply !! k = Some (default (Task_default k) (d !! k)).
Proof. apply Task_inv. Qed.

(** *** Creating a task, whatever the body *)

(** X7. For an authenticated caller on a well-formed store, creating a task
    from any body with a title answers 200 and appends exactly one task:
    its [_id] is fresh, its owner is the caller, it has no [completed] and
    no [updated_at] field, whatever the body says about [completed]; the
    reply shows [completed] false and [updated_at] null. Users and the
    other tasks stay as they are. *)
Theorem create_appends_one_owned_task w (cu : Doc) uid body title now :
  wf w ->
  cu !! "_id" = Some uid ->
  j_title body = Given title ->
  exists reply t,
    api_tasks_post body cu now w
    = (Ok reply,
       {| users := users w; tasks := (tasks w ++ [t])%list;
          next_oid := N.succ (next_oid w) |}) /\
    t !! "_id" = Some (VOid (next_oid w)) /\
    (forall d, d ∈ tasks w -> d !! "_id" <> Some (VOid (next_oid w))) /\
    t !! "user_id" = Some (VStr (py_str uid)) /\
    t !! "title" = Some (VStr title) /\
    t !! "created_at" = Some (VDate now) /\
    t !! "completed" = None /\
    t !! "updated_at" = None /\
    reply !! "id" = Some (VStr (py_str (VOid (next_oid w)))) /\
    reply !! "user_id" = Some (VStr (py_str uid)) /\
    reply !! "title" = Some (VStr title) /\
    reply !! "completed" = Some (VBool false) /\
    reply !! "updated_at" = Some VNone.
Proof.
  intros Hwf Hcu Hjt.
  destruct (TaskCreate body) as [m|] eqn:Hm.
  2:{ unfold TaskCreate, TaskBase in Hm. by rewrite Hjt in Hm. }
  set (t := task_dict (next_oid w) uid m now).
  assert (Hid : t !! "_id" = Some (VOid (next_oid w))).
  { unfold t, task_dict. by rewrite lookup_insert_eq. }
  assert (Hlook : forall k, k <> "_id" -> k <> "created_at" -> k <> "user_id" ->
                            t !! k = dict m !! k).
  { intros k H1 H2 H3. unfold t, task_dict.
    by rewrite !lookup_insert_ne. }
  assert (Hown : t !! "user_id" = Some (VStr (py_str uid))).
  { unfold t, task_dict. by rewrite lookup_insert_ne, lookup_insert_ne,
      lookup_insert_eq. }
  assert (Hnow : t !! "created_at" = Some (VDate now)).
  { unfold t, task_dict. by rewrite lookup_insert_ne, lookup_insert_eq. }
  assert (Htitle : t !! "title" = Some (VStr title)).
  { rewrite Hlook by done. rewrite (TaskCreate_lookup body m _ Hm). simpl.
    by rewrite Hjt. }
  assert (Hcomp : t !! "completed" = None).
  { rewrite Hlook by done. by rewrite (TaskCreate_lookup body m _ Hm). }
  assert (Hupd : t !! "updated_at" = None).
  { rewrite Hlook by done. by rewrite (TaskCreate_lookup body m _ Hm). }
  pose proof (pop_id_Return t _ Hid) as Hr.
  destruct (Task_accepts _ (py_str (VOid (next_oid w)))
              (rendered_typed _ _ Hr (task_dict_typed body m _ uid now Hm)))
    as (reply & Hreply & _).
  { by rewrite lookup_insert_eq. }
  { intros v. rewrite (pop_id_lookup _ _ "completed" Hr) by done.
    by rewrite Hcomp. }
  destruct (Task_inv _ _ Hreply) as [_ Hfields].
  exists reply, t. split.
  { unfold api_tasks_post, route. rewrite Hm.
    rewrite (create_fresh m cu uid now w Hwf Hcu). fold t.
    rewrite Hr. unfold serve. by rewrite Hreply. }
  split; [done|]. split.
  { intros d Hd Hdo. pose proof (wf_tasks_oid w Hwf) as Hall.
    rewrite Forall_forall in Hall. destruct (Hall d Hd) as (o & Ho & Hlt).
    rewrite Ho in Hdo. injection Hdo as ->. lia. }
  repeat split; try done.
  - rewrite Hfields by (unfold Task_fields; set_solver).
    by rewrite lookup_insert_eq.
  - rewrite Hfields by (unfold Task_fields; set_solver).
    by rewrite (pop_id_lookup _ _ "user_id" Hr), Hown.
  - rewrite Hfields by (unfold Task_fields; set_solver).
    by rewrite (pop_id_lookup _ _ "title" Hr), Htitle.
  - rewrite Hfields by (unfold Task_fields; set_solver).
    by rewrite (pop_id_lookup _ _ "completed" Hr), Hcomp.
  - rewrite Hfields by (unfold Task_fields; set_solver).
    by rewrite (pop_id_lookup _ _ "updated_at" Hr), Hupd.
Qed.

(** *** Listings *)

Lemma skip_limit_length s n (l c : list Doc) :
  Mongo.skip_limit s n l = Return c -> length c <= length l.
Proof.
  unfold Mongo.skip_limit. destruct (s <? 0)%Z; [done|]. intros [= <-].
  destruct (n =? 0)%Z; rewrite ?length_take, length_drop; lia.
Qed.

Lemma pop_id_shape (d r : Doc) :
  pop_id d = Return r -> r !! "_id" = None /\ exists i, r !! "id" = Some (VStr i).
Proof.
  unfold pop_id. destruct (d !! "_id") as [v|]; [|done]. intros [= <-]. split.
  - by rewrite lookup_insert_ne, lookup_delete_eq.
  - eexists. by rewrite lookup_insert_eq.
Qed.

(** X8. A listing never changes the store. When it answers 200, it echoes
    the page and limit asked for, shows no more tasks than the total it
    reports, and every task it shows belongs to the caller and carries [id]
    in place of [_id]. *)
Theorem listing_shows_only_the_callers_tasks cu page limit category priority
    completed due_date w :
  snd (api_tasks_get cu page limit category priority completed due_date w) = w /\
  forall l,
    fst (api_tasks_get cu page limit category priority completed due_date w)
    = Ok l ->
    Listing.page l = page /\
    Listing.limit l = limit /\
    length (Listing.tasks l) <= Listing.total l /\
    forall r : Doc,
      r ∈ Listing.tasks l ->
      (exists uid, cu !! "_id" = Some uid /\
                   r !! "user_id" = Some (VStr (py_str uid))) /\
      r !! "_id" = None /\
      exists i, r !! "id" = Some (VStr i).
Proof.
  split; [apply wf_get|]. intros l. unfold api_tasks_get, route.
  rewrite get_tasks_eq. unfold server_fault.
  destruct (cu !! "_id") as [uid|] eqn:Hcu; [|done]. cbv zeta.
  destruct (Mongo.skip_limit _ _ _) as [c|] eqn:Ec; [|done].
  destruct (collect c) as [ts|] eqn:Ets; [|done]. simpl. intros [= <-]. simpl.
  split; [done|]. split; [done|]. split.
  - apply collect_Forall2, Forall2_length in Ets. rewrite <- Ets.
    unfold Mongo.count_documents. by eapply skip_limit_length.
  - intros r Hr. destruct (collect_elem _ _ _ Ets Hr) as (d & Hd & Hdr).
    split; [|by eapply pop_id_shape].
    exists uid. split; [done|].
    rewrite (pop_id_lookup d r "user_id" Hdr) by done.
    apply (skip_limit_elem _ _ _ _ _ Ec) in Hd.
    apply list_elem_of_In, filter_In in Hd as [_ Hm].
    by eapply tasks_query_owner.
Qed.

(** X9. A page number that makes [skip = (page - 1) * limit] negative, page
    0 with a positive limit for one, is answered with 500: the cursor
    refuses the negative skip and the handler turns the exception into a
    server fault. The store is unchanged. *)
Theorem negative_skip_is_a_server_fault (cu : Doc) uid page limit category
    priority completed due_date w :
  cu !! "_id" = Some uid ->
  ((page - 1) * limit < 0)%Z ->
  api_tasks_get cu page limit category priority completed due_date w
  = (Error 500 (exn_str ValueError), w).
Proof.
  intros Hcu Hneg. unfold api_tasks_get, route. rewrite get_tasks_eq, Hcu.
  cbv zeta. unfold Mongo.skip_limit.
  by replace ((page - 1) * limit <? 0)%Z with true
    by (symmetry; by apply Z.ltb_lt).
Qed.

(** X10. With [limit=0] the listing has no window: whatever the page, it
    answers with all the caller's tasks that pass the filters, in stored
    order, and the total is their number. *)
Theorem limit_zero_lists_everything w (cu : Doc) uid page category priority
    completed due_date :
  wf w ->
  cu !! "_id" = Some uid ->
  exists ts,
    Forall2 (fun d r => pop_id d = Return r)
      (listed uid category priority completed due_date w) ts /\
    get_tasks cu page 0 category priority completed due_date w
    = (Return {| Listing.tasks := ts; Listing.total := length ts;
                 Listing.page := page; Listing.limit := 0 |}, w).
Proof.
  intros Hwf Hcu.
  destruct (collect_total (listed uid category priority completed due_date w))
    as [ts Hts].
  { apply Forall_filter_bool, wf_tasks_have_id, Hwf. }
  exists ts. apply collect_Forall2 in Hts as Hall. split; [done|].
  unfold listed in *.
  rewrite get_tasks_eq, Hcu. cbv zeta.
  unfold Mongo.skip_limit, Mongo.count_documents.
  replace ((page - 1) * 0)%Z with 0%Z by lia.
  change (0 <? 0)%Z with false. change (0 =? 0)%Z with true.
  change (Z.to_nat 0) with 0%nat. rewrite drop_0.
  by rewrite Hts, (Forall2_length _ _ _ Hall).
Qed.

(** X11. Asking for a page after the last one, with no filter and a positive
    limit, answers 200 with no task and the same total as every other
    page. *)
Theorem page_past_the_end_is_empty w (cu : Doc) uid (L p : nat) :
  wf w ->
  cu !! "_id" = Some uid ->
  0 < L ->
  page_count (length (listed uid None None None None w)) L < p ->
  get_tasks cu (Z.of_nat p) (Z.of_nat L) None None None None w
  = (Return {| Listing.tasks := [];
               Listing.total := length (listed uid None None None None w);
               Listing.page := Z.of_nat p;
               Listing.limit := Z.of_nat L |}, w).
Proof.
  intros Hwf Hcu HL Hp. unfold listed in *.
  pose proof (page_count_covers
                (length (Mongo.find
                           (Mongo.Fields (tasks_query uid None None None None))
                           (tasks w))) L HL) as Hcov.
  rewrite get_tasks_eq, Hcu. cbv zeta.
  unfold Mongo.skip_limit, Mongo.count_documents.
  replace ((Z.of_nat p - 1) * Z.of_nat L <? 0)%Z with false
    by (symmetry; apply Z.ltb_ge; nia).
  replace (Z.of_nat L =? 0)%Z with false by (symmetry; apply Z.eqb_neq; lia).
  rewrite drop_ge by nia. by rewrite take_nil.
Qed.

Lemma get_tasks_total w (cu : Doc) uid page limit category priority completed
    due_date :
  wf w ->
  cu !! "_id" = Some uid ->
  (0 <= (page - 1) * limit)%Z ->
  exists l,
    get_tasks cu page limit category priority completed due_date w
    = (Return l, w) /\
    Listing.total l
    = length (listed uid category priority completed due_date w).
Proof.
  intros Hwf Hcu Hskip. unfold listed. rewrite get_tasks_eq, Hcu. cbv zeta.
  destruct (Mongo.skip_limit _ _ _) as [c|] eqn:Ec.
  2:{ unfold Mongo.skip_limit in Ec.
      destruct ((page - 1) * limit <? 0)%Z eqn:E; [|done].
      apply Z.ltb_lt in E. lia. }
  destruct (collect_total c) as [ts Hts].
  { apply Forall_forall. intros d Hd.
    apply (skip_limit_elem _ _ _ _ _ Ec) in Hd.
    apply list_elem_of_In, filter_In in Hd as [Hd _].
    pose proof (wf_tasks_have_id w Hwf) as Hid.
    rewrite Forall_forall in Hid. by apply Hid, list_elem_of_In. }
  rewrite Hts. by eexists.
Qed.

(** X12. After a task is created, the creator's unfiltered listing finds it
    last and the total it reports is one more than before, on every page;
    the listings of every other user, under any filters, find what they
    found before. *)
Theorem created_task_is_listed_for_its_owner_only w (cu : Doc) uid body title
    now :
  wf w ->
  cu !! "_id" = Some uid ->
  j_title body = Given title ->
  let w' := snd (api_tasks_post body cu now w) in
  (exists t,
     t !! "title" = Some (VStr title) /\
     listed uid None None None None w'
     = (listed uid None None None None w ++ [t])%list) /\
  (forall page limit,
     (0 <= (page - 1) * limit)%Z ->
     exists l l',
       get_tasks cu page limit None None None None w = (Return l, w) /\
       get_tasks cu page limit None None None None w' = (Return l', w') /\
       Listing.total l' = S (Listing.total l)) /\
  (forall uid2 category priority completed due_date,
     py_str uid2 <> py_str uid ->
     listed uid2 category priority completed due_date w'
     = listed uid2 category priority completed due_date w).
Proof.
  intros Hwf Hcu Hjt w'.
  destruct (TaskCreate body) as [m|] eqn:Hm.
  2:{ unfold TaskCreate, TaskBase in Hm. by rewrite Hjt in Hm. }
  set (t := task_dict (next_oid w) uid m now).
  assert (Hw' : tasks w' = (tasks w ++ [t])%list).
  { unfold w', api_tasks_post, route. rewrite Hm.
    rewrite (create_fresh m cu uid now w Hwf Hcu). by destruct (pop_id _). }
  assert (Hown : t !! "user_id" = Some (VStr (py_str uid))).
  { unfold t, task_dict. by rewrite lookup_insert_ne, lookup_insert_ne,
      lookup_insert_eq. }
  assert (Hmine : listed uid None None None None w'
                  = (listed uid None None None None w ++ [t])%list).
  { unfold listed. rewrite Hw'. unfold Mongo.find.
    rewrite List.filter_app. f_equal. cbn [List.filter].
    replace (Mongo.matches _ t) with true; [done|]. symmetry.
    apply tasks_query_matches. unfold selected. simpl. tauto. }
  split; [|split].
  - exists t. split; [|done]. unfold t, task_dict.
    rewrite !lookup_insert_ne by done.
    rewrite (TaskCreate_lookup body m _ Hm). simpl. by rewrite Hjt.
  - intros page limit Hskip.
    assert (Hwf' : wf w') by apply wf_post, Hwf.
    destruct (get_tasks_total w cu uid page limit None None None None
                Hwf Hcu Hskip) as (l & Hl & Htot).
    destruct (get_tasks_total w' cu uid page limit None None None None
                Hwf' Hcu Hskip) as (l' & Hl' & Htot').
    exists l, l'. split; [done|]. split; [done|].
    rewrite Htot', Htot, Hmine, length_app. simpl. lia.
  - intros uid2 category priority completed due_date Hne.
    unfold listed. rewrite Hw'. unfold Mongo.find.
    rewrite List.filter_app. cbn [List.filter].
    destruct (Mongo.matches _ t) eqn:Em; [|by rewrite app_nil_r].
    apply tasks_query_owner in Em. rewrite Hown in Em. congruence.
Qed.

(** X13. After an update of an owned task whose body sets [completed], the
    owner's listing filtered on that value of [completed] finds the task and
    the listing filtered on the other value does not. *)
Theorem completed_update_moves_the_task task_id body title b (cu : Doc) uid
    now w l1 (t : Doc) l2 o :
  wf w ->
  tasks w = (l1 ++ t :: l2)%list ->
  t !! "_id" = Some (VOid o) ->
  t !! "user_id" = Some (VStr (py_str uid)) ->
  cu !! "_id" = Some uid ->
  ObjectId_of_str task_id = Some o ->
  j_title body = Given title ->
  j_completed body = Given b ->
  let w' := snd (api_tasks_put task_id body cu now w) in
  exists t',
    tasks w' = (l1 ++ t' :: l2)%list /\
    t' !! "_id" = Some (VOid o) /\
    t' ∈ listed uid None None (Some b) None w' /\
    t' ∉ listed uid None None (Some (negb b)) None w'.
Proof.
  intros Hwf Hts Hid Hown Hcu Hparse Hjt Hjc w'.
  destruct (TaskUpdate body) as [m|] eqn:Hm.
  2:{ unfold TaskUpdate, TaskBase in Hm. by rewrite Hjt in Hm. }
  assert (Hw' : tasks w' = (l1 ++ updated m now t :: l2)%list).
  { unfold w', api_tasks_put, route. rewrite Hm.
    by rewrite (update_owned task_id body m cu uid now w l1 t l2 o). }
  assert (Hc : updated m now t !! "completed" = Some (VBool b)).
  { rewrite (updated_lookup body m now t _ Hm). simpl. by rewrite Hjc. }
  assert (Hu : updated m now t !! "user_id" = Some (VStr (py_str uid))).
  { by rewrite (updated_lookup body m now t _ Hm). }
  exists (updated m now t). split; [done|]. split.
  { by rewrite (updated_id body m now t Hm). }
  unfold listed, Mongo.find. rewrite Hw'. split.
  - apply list_elem_of_In, filter_In. split.
    + apply list_elem_of_In, elem_of_app. right. left.
    + apply tasks_query_matches. unfold selected. simpl. tauto.
  - intros Hin. apply list_elem_of_In, filter_In in Hin as [_ Hmatch].
    apply tasks_query_matches in Hmatch as (_ & _ & _ & Hb & _).
    simpl in Hb. rewrite Hc in Hb. by destruct b.
Qed.

(** *** Login on reachable stores *)

Lemma login_query_none_unmatched (coll : list Doc) :
  Forall user_typed coll ->
  Mongo.find_one (login_query VNone) coll = None.
Proof.
  intros Hty. apply find_one_None. eapply Forall_impl; [exact Hty|].
  intros d [(e & He) (n & Hn) _]. unfold login_query.
  change (Mongo.matches (Mongo.Or ?qs) d)
    with (existsb (fun q' => Mongo.matches q' d) qs).
  cbn [existsb]. apply not_true_is_false.
  rewrite !orb_true_iff, !matches_Fields, !map_Forall_singleton.
  unfold Mongo.field_matches. rewrite He, Hn. intuition discriminate.
Qed.

(** X14. A login whose body has no [emailOrUsername], or has it null, finds
    no user in a store whose users are typed: it is refused, and the reply
    is the 500 the handler makes of its own 401. The store is unchanged. *)
Theorem login_without_identifier_is_refused credentials w :
  users_ok w ->
  get credentials "emailOrUsername" = VNone ->
  api_auth_login credentials w = (Error 500 (exn_str unauthenticated), w).
Proof.
  intros [_ Hty] Hnone. unfold api_auth_login, route. rewrite login_eq.
  cbv zeta. rewrite Hnone.
  by rewrite (login_query_none_unmatched (users w) Hty).
Qed.

End Properties.

(** ** The theorems at concrete requests *)

#[local] Existing Instance Ref.externals.

(** The reference hasher keeps the contract of the spec: a digest verifies
    against its plaintext, and the salt shows in the digest. *)
Lemma reference_hash_verifies salt plain :
  Ref.verify (VStr plain) (VStr (Ref.hash salt plain)) = Return true.
Proof.
  unfold Ref.verify, Ref.hash. rewrite bool_decide_eq_true_2; [done|].
  induction (N.to_nat salt) as [|marks IH]; [done | exact IH].
Qed.

Lemma reference_hash_salted plain :
  Ref.hash 1 plain <> Ref.hash 2 plain.
Proof. by vm_compute. Qed.

Lemma wf_world7 : wf Ref.world7.
Proof.
  unfold Ref.world7, Ref.world6, Ref.world5, Ref.world4, Ref.world3,
    Ref.world2, Ref.world1.
  repeat first [apply wf_post | apply wf_register]. apply wf_initial.
Qed.

Lemma world7_tasks :
  tasks Ref.world7 =
  [Ref.report_doc;
   task_dict 5 (VOid 1)
     {| values := {[ "title" := VStr "Buy milk"; "description" := VNone;
                     "category" := VNone; "priority" := VStr "medium";
                     "due_date" := VNone ]};
        fields_set := {[ "title" ]} |} 2100;
   task_dict 6 (VOid 1)
     {| values := {[ "title" := VStr "Call home"; "description" := VNone;
                     "category" := VNone; "priority" := VStr "medium";
                     "due_date" := VNone ]};
        fields_set := {[ "title" ]} |} 2200;
   task_dict 7 (VOid 2)
     {| values := {[ "title" := VStr "Fix fence"; "description" := VNone;
                     "category" := VNone; "priority" := VStr "medium";
                     "due_date" := VNone ]};
        fields_set := {[ "title" ]} |} 2300].
Proof. vm_compute. reflexivity. Qed.

Lemma ownership_isolation_witness :
  api_tasks_put Ref.report_id Ref.done_body Ref.bob_doc 3000 Ref.world7
  = (Error 500 "404: Task not found", Ref.world7) /\
  api_tasks_delete Ref.report_id Ref.bob_doc Ref.world7
  = (Error 500 "404: Task not found", Ref.world7).
Proof.
  destruct (ownership_isolation Ref.world7 Ref.report_doc Ref.bob_doc 4
              (VOid 1) (VOid 2) Ref.report_id) as (_ & Hput & Hdel).
  - exact wf_world7.
  - rewrite world7_tasks. left.
  - reflexivity.
  - reflexivity.
  - reflexivity.
  - by_evaluation.
  - reflexivity.
  - split; [apply Hput; by eexists | exact Hdel].
Defined.

Lemma missing_task_is_server_fault_witness :
  api_tasks_delete Ref.missing_id Ref.alice_doc Ref.world7
  = (Error 500 "404: Task not found", Ref.world7) /\
  api_tasks_put Ref.missing_id Ref.done_body Ref.alice_doc 3000 Ref.world7
  = (Error 500 "404: Task not found", Ref.world7).
Proof.
  destruct (missing_task_is_server_fault Ref.missing_id Ref.alice_doc (VOid 1)
              Ref.world7) as (Hdel & Hput).
  - reflexivity.
  - intros o d Hparse Hd Hid. vm_compute in Hparse. injection Hparse as <-.
    rewrite world7_tasks in Hd.
    repeat (apply elem_of_cons in Hd as [->|Hd]); try discriminate Hid.
    inversion Hd.
  - split; [exact Hdel | apply Hput; by eexists].
Defined.


Lemma bad_credentials_is_server_fault_witness :
  api_auth_login (Ref.credentials "bob@example.com" "rabbit") Ref.world3
  = (Error 500 "401: Incorrect email/username or password", Ref.world3).
Proof.
  assert (Hlogin := bad_credentials_is_server_fault
                      (Ref.credentials "bob@example.com" "rabbit") Ref.world3).
  apply Hlogin. right. exists Ref.bob_doc, (VStr "ss$hammer").
  split; [by vm_compute|]. split; [by vm_compute | reflexivity].
Defined.

Lemma create_title_only_witness :
  status (fst (api_tasks_post (title_only "Buy milk") Ref.alice_doc 2100
                 Ref.world4)) = 200 /\
  Ref.categories
    (fst (api_tasks_get Ref.alice_doc 1 10 None None (Some false) None
            Ref.world5))
  = Some ([], 0).
Proof.
  destruct (create_title_only Ref.world4 Ref.alice_doc (VOid 1) "Buy milk" 2100)
    as (t & w' & Hpost & _).
  - unfold Ref.world4, Ref.world3, Ref.world2, Ref.world1.
    repeat first [apply wf_post | apply wf_register]. apply wf_initial.
  - reflexivity.
  - split; [by rewrite Hpost | by vm_compute].
Defined.




Lemma login_first_match_witness :
  api_auth_login (Ref.credentials "bob" "hammer") Ref.world3
  = (Ok {[ "access_token" := VStr "sub=bob@example.com";
           "token_type" := VStr "bearer" ]}, Ref.world3) /\
  api_auth_login (Ref.credentials "bob@example.com" "hammer") Ref.world3
  = (Ok {[ "access_token" := VStr "sub=bob@example.com";
           "token_type" := VStr "bearer" ]}, Ref.world3).
Proof.
  assert (Hlogin := fun ident =>
            login_first_match Ref.world3 [Ref.alice_doc] Ref.bob_doc
              [Ref.alice2_doc] "bob@example.com" "bob" (VStr "ss$hammer")
              "hammer" ident eq_refl eq_refl eq_refl eq_refl eq_refl).
  split; apply Hlogin; try tauto;
    repeat constructor; discriminate.
Defined.

(** The second [alice] is registered, logs in with her email, and is
    refused with her username and the same password: the query finds the
    first [alice]. *)
Lemma shared_username_login_fails :
  status (fst (api_auth_register Ref.alice2 1200 3 Ref.world2)) = 200 /\
  api_auth_login (Ref.credentials "cooper@example.com" "poison") Ref.world3
  = (Ok {[ "access_token" := VStr "sub=cooper@example.com";
           "token_type" := VStr "bearer" ]}, Ref.world3) /\
  api_auth_login (Ref.credentials "alice" "poison") Ref.world3
  = (Error 500 "401: Incorrect email/username or password", Ref.world3).
Proof. by vm_compute. Qed.




(** *** Further properties at concrete requests *)

Lemma delete_removes_the_task_once_witness :
  status (fst (api_tasks_delete Ref.report_id Ref.alice_doc Ref.world7)) = 200 /\
  length (tasks (snd (api_tasks_delete Ref.report_id Ref.alice_doc Ref.world7)))
  = 3.
Proof.
  destruct (delete_removes_the_task_once Ref.report_id Ref.alice_doc (VOid 1)
              Ref.world7 [] Ref.report_doc (tail (tasks Ref.world7)) 4)
    as [Hfirst _].
  - exact wf_world7.
  - by rewrite world7_tasks.
  - reflexivity.
  - reflexivity.
  - reflexivity.
  - reflexivity.
  - rewrite Hfirst. split; [reflexivity|]. by vm_compute.
Defined.

Lemma Task_reply_fields_witness :
  exists reply : Doc,
    Task {[ "title" := VStr "Buy milk"; "id" := VStr Ref.report_id;
            "user_id" := VStr "000000000000000000000001";
            "created_at" := VDate 2100; "_id" := VOid 4 ]} = Some reply /\
    dom reply = Task_fields.
Proof.
  match goal with
  | |- exists reply, Task ?d = Some reply /\ _ =>
      destruct (Task d) as [reply|] eqn:Hreply; [|discriminate Hreply];
      exists reply; split; [reflexivity|];
      apply (Task_reply_fields d reply Hreply)
  end.
Defined.

Lemma create_appends_one_owned_task_witness :
  status (fst (api_tasks_post Ref.report Ref.alice_doc 2000 Ref.world3)) = 200 /\
  length (tasks (snd (api_tasks_post Ref.report Ref.alice_doc 2000 Ref.world3)))
  = 1.
Proof.
  destruct (create_appends_one_owned_task Ref.world3 Ref.alice_doc (VOid 1)
              Ref.report "Write report" 2000)
    as (reply & t & Hpost & _).
  - unfold Ref.world3, Ref.world2, Ref.world1.
    repeat apply wf_register. apply wf_initial.
  - reflexivity.
  - reflexivity.
  - rewrite Hpost. split; [reflexivity|]. by vm_compute.
Defined.

Lemma negative_skip_is_a_server_fault_witness :
  api_tasks_get Ref.alice_doc 0 10 None None None None Ref.world7
  = (Error 500 "skip must be >= 0", Ref.world7).
Proof.
  assert (Hget := negative_skip_is_a_server_fault Ref.alice_doc (VOid 1) 0 10
                    None None None None Ref.world7).
  apply Hget; [reflexivity | lia].
Defined.

Lemma limit_zero_lists_everything_witness :
  exists ts,
    length ts = 3 /\
    get_tasks Ref.alice_doc 5 0 None None None None Ref.world7
    = (Return {| Listing.tasks := ts; Listing.total := length ts;
                 Listing.page := 5; Listing.limit := 0 |}, Ref.world7).
Proof.
  destruct (limit_zero_lists_everything Ref.world7 Ref.alice_doc (VOid 1) 5
              None None None None) as (ts & Hall & Hget).
  - exact wf_world7.
  - reflexivity.
  - exists ts. split; [|exact Hget].
    rewrite <- (Forall2_length _ _ _ Hall). by vm_compute.
Defined.

Lemma page_past_the_end_is_empty_witness :
  get_tasks Ref.alice_doc (Z.of_nat 3) (Z.of_nat 2) None None None None
    Ref.world7
  = (Return {| Listing.tasks := [];
               Listing.total :=
                 length (listed (VOid 1) None None None None Ref.world7);
               Listing.page := Z.of_nat 3;
               Listing.limit := Z.of_nat 2 |}, Ref.world7) /\
  length (listed (VOid 1) None None None None Ref.world7) = 3.
Proof.
  split; [|by vm_compute].
  apply (page_past_the_end_is_empty Ref.world7 Ref.alice_doc (VOid 1) 2 3).
  - exact wf_world7.
  - reflexivity.
  - lia.
  - vm_compute. lia.
Defined.

Lemma created_task_is_listed_for_its_owner_only_witness :
  length (listed (VOid 1) None None None None Ref.world5) = 2 /\
  listed (VOid 2) None None None None Ref.world5
  = listed (VOid 2) None None None None Ref.world4.
Proof.
  destruct (created_task_is_listed_for_its_owner_only Ref.world4 Ref.alice_doc
              (VOid 1) (title_only "Buy milk") "Buy milk" 2100)
    as ((t & _ & Hmine) & _ & Hothers).
  - unfold Ref.world4, Ref.world3, Ref.world2, Ref.world1.
    repeat first [apply wf_post | apply wf_register]. apply wf_initial.
  - reflexivity.
  - reflexivity.
  - split.
    + unfold Ref.world5. rewrite Hmine, length_app. by vm_compute.
    + apply (Hothers (VOid 2)). by_evaluation.
Defined.

Lemma completed_update_moves_the_task_witness :
  exists t' : Doc,
    t' !! "_id" = Some (VOid 4) /\
    t' ∈ listed (VOid 1) None None (Some true) None
           (snd (api_tasks_put Ref.report_id Ref.done_body Ref.alice_doc 3000
                   Ref.world7)).
Proof.
  destruct (completed_update_moves_the_task Ref.report_id Ref.done_body
              "Write report" true Ref.alice_doc (VOid 1) 3000 Ref.world7 []
              Ref.report_doc (tail (tasks Ref.world7)) 4)
    as (t' & _ & Hid & Hin & _).
  - exact wf_world7.
  - by rewrite world7_tasks.
  - reflexivity.
  - reflexivity.
  - reflexivity.
  - reflexivity.
  - reflexivity.
  - reflexivity.
  - by exists t'.
Defined.
